(** * tunein.py: favourites traversal and stream resolution

    A shallow embedding of [docs/tunein.py].  The script reads a keyword,
    fetches the favourites listing, walks its two-level JSON structure and,
    for every leaf item, asks a second endpoint for a playable stream.

    - Decoded JSON is the inductive type [value]; the Python operations the
      script applies to it ([v[k]], [v.get(k)], [v.items()], [len], [for],
      truthiness, [==]) are total functions that return the exception
      Python raises on the shapes it rejects.
    - The network is a parameter: a world and a function answering each
      request in it.  The codec of standard output is a parameter too:
      [print] raises UnicodeEncodeError on a text it cannot encode.
    - A string is the UTF-8 bytes of a Python [str], a lone surrogate
      being the three bytes its code point would take.
    - A statement is a function from the world to an outcome, the events
      it emitted (requests sent, values printed) and the world after it.
      [continue], [break] and [return] are outcomes, caught by the
      enclosing loop or call as in Python. *)

From Stdlib Require Import String Ascii List ZArith Bool Lia DecimalString.
Import ListNotations.
Local Open Scope string_scope.
Local Open Scope list_scope.
Set Warnings "-register-all".

(** ** Python values decoded from JSON *)

Module Py.

(** What [json()] yields: [None], booleans, integers, strings, lists and
    dicts.  A dict is its bindings in insertion order; a decoded dict has
    no two bindings with one key.  Numbers with a fractional part are not
    represented. *)
Inductive value : Type :=
  | JNull
  | JBool (b : bool)
  | JNum (z : Z)
  | JStr (s : string)
  | JArr (l : list value)
  | JObj (o : list (string * value)).

Inductive exn : Type :=
  | KeyError (k : string)
  | TypeError
  | AttributeError
  | IndexError
  | SyntaxError
  | UnicodeEncodeError
  | RequestError (msg : string).

Definition result (A : Type) : Type := (exn + A)%type.

(** [bool(v)] *)
Definition truthy (v : value) : bool :=
  match v with
  | JNull => false
  | JBool b => b
  | JNum z => negb (Z.eqb z 0)
  | JStr s => negb (String.eqb s "")
  | JArr l => match l with [] => false | _ :: _ => true end
  | JObj o => match o with [] => false | _ :: _ => true end
  end.

(** [v == 'lit'] for a string literal *)
Definition eq_str (v : value) (lit : string) : bool :=
  match v with
  | JStr s => String.eqb s lit
  | _ => false
  end.

(** First binding of a key in a dict. *)
Fixpoint assoc (k : string) (o : list (string * value)) : option value :=
  match o with
  | [] => None
  | (k', v) :: r => if String.eqb k k' then Some v else assoc k r
  end.

(** [v[k]] with a string key *)
Definition getitem (v : value) (k : string) : result value :=
  match v with
  | JObj o => match assoc k o with
              | Some x => inr x
              | None => inl (KeyError k)
              end
  | _ => inl TypeError
  end.

(** [v[n]] with an integer index [n >= 0] *)
Definition getindex (v : value) (n : nat) : result value :=
  match v with
  | JArr l => match nth_error l n with
              | Some x => inr x
              | None => inl IndexError
              end
  | JStr s => match String.get n s with
              | Some c => inr (JStr (String c EmptyString))
              | None => inl IndexError
              end
  | JObj _ => inl (KeyError (NilEmpty.string_of_uint (Nat.to_uint n)))
  | _ => inl TypeError
  end.

(** [v.get(k)]: only a dict has the method *)
Definition method_get (v : value) (k : string) : result value :=
  match v with
  | JObj o => match assoc k o with
              | Some x => inr x
              | None => inr JNull
              end
  | _ => inl AttributeError
  end.

(** [v.items()] *)
Definition method_items (v : value) : result (list (string * value)) :=
  match v with
  | JObj o => inr o
  | _ => inl AttributeError
  end.

(** [len(v)] *)
Definition len (v : value) : result nat :=
  match v with
  | JArr l => inr (List.length l)
  | JStr s => inr (String.length s)
  | JObj o => inr (List.length o)
  | _ => inl TypeError
  end.

Fixpoint chars (s : string) : list value :=
  match s with
  | EmptyString => []
  | String c r => JStr (String c EmptyString) :: chars r
  end.

(** What [for x in v] enumerates: the elements of a list, the characters
    of a string, the keys of a dict. *)
Definition iter (v : value) : result (list value) :=
  match v with
  | JArr l => inr l
  | JStr s => inr (chars s)
  | JObj o => inr (map (fun kv => JStr (fst kv)) o)
  | _ => inl TypeError
  end.

(** [s.endswith(suffix)] *)
Definition endswith (s suffix : string) : bool :=
  let n := String.length s in
  let m := String.length suffix in
  if Nat.leb m n then String.eqb (substring (n - m) m s) suffix else false.

(** [next((value for key, value in ite.items() if key.endswith('Cell')),
    None)], lines 59-62 of the script: the value of the first key with
    the suffix, else [None]. *)
Definition next_cell (ite : value) : result value :=
  match method_items ite with
  | inl e => inl e
  | inr items =>
      inr (match find (fun kv => endswith (fst kv) "Cell") items with
           | Some kv => snd kv
           | None => JNull
           end)
  end.

(** A text of ASCII characters only: every byte is below 128. *)
Definition ascii_char (c : ascii) : bool :=
  match c with
  | Ascii _ _ _ _ _ _ _ b7 => negb b7
  end.

Fixpoint is_ascii (s : string) : bool :=
  match s with
  | EmptyString => true
  | String c r => ascii_char c && is_ascii r
  end.

(** [str(v)], which [print] and f-strings apply, on the scalars; a list or
    a dict is rendered by [repr], which is left out. *)
Definition str (v : value) : option string :=
  match v with
  | JNull => Some "None"
  | JBool true => Some "True"
  | JBool false => Some "False"
  | JNum z => Some (NilEmpty.string_of_int (Z.to_int z))
  | JStr s => Some s
  | JArr _ | JObj _ => None
  end.

End Py.
Import Py.

(** ** Requests, events and statements *)

(** The three requests of the script, by what varies in them: the keyword
    typed by the user, and the identifier formatted into the URL. *)
Inductive request : Type :=
  | Profiles (query : string)
  | Tune (id : value)
  | Contents (id : value).

(** What a run does that can be observed: a request sent, a value handed
    to [print]. *)
Inductive event : Type :=
  | Sent (r : request)
  | Printed (v : value).

Inductive outcome (A : Type) : Type :=
  | Done (a : A)
  | Continue
  | Break
  | Return (v : value)
  | Raise (e : exn).
Arguments Done {A} a.
Arguments Continue {A}.
Arguments Break {A}.
Arguments Return {A} v.
Arguments Raise {A} e.

(** The URL of [get_stream], given the text the f-string puts for [id]. *)
Definition tune_url (id : string) : string :=
  "https://opml.radiotime.com/Tune.ashx?&id=" ++ id ++
  "&itemUrlScheme=secure&partnerId=RadioTime&version=7.10.2&formats=mp3%2Caac%2Cogg%2Cflash%2Chtml%2Chls&render=json".

(** The Tune requests of a trace, in order. *)
Fixpoint tune_ids (t : list event) : list value :=
  match t with
  | [] => []
  | Sent (Tune id) :: r => id :: tune_ids r
  | _ :: r => tune_ids r
  end.

(** The values printed in a trace, in order. *)
Fixpoint printed (t : list event) : list value :=
  match t with
  | [] => []
  | Printed v :: r => v :: printed r
  | _ :: r => printed r
  end.

(** The values printed after the first Tune request of a trace. *)
Fixpoint printed_after_tune (t : list event) : list value :=
  match t with
  | [] => []
  | Sent (Tune _) :: r => printed r
  | _ :: r => printed_after_tune r
  end.

Section Script.

Variable World : Type.

(** [requests.get(...).json()]: the decoded body, or the exception of a
    failed transfer or of a body that is not JSON. *)
Variable respond : request -> World -> result value * World.

(** Whether the codec of [sys.stdout] encodes the text [print] writes
    for a value, asked for the texts that are not known to be ASCII. *)
Variable encodes : value -> bool.

Definition prog (A : Type) : Type := World -> outcome A * list event * World.

Definition ret {A} (a : A) : prog A := fun w => (Done a, [], w).

Definition bind {A B} (m : prog A) (f : A -> prog B) : prog B :=
  fun w =>
    let '(o, t, w1) := m w in
    match o with
    | Done a => let '(o2, t2, w2) := f a w1 in (o2, t ++ t2, w2)
    | Continue => (Continue, t, w1)
    | Break => (Break, t, w1)
    | Return v => (Return v, t, w1)
    | Raise e => (Raise e, t, w1)
    end.

Notation "x <- m ;; k" := (bind m (fun x => k))
  (at level 61, m at next level, right associativity).
Notation "m ;; k" := (bind m (fun _ => k))
  (at level 61, right associativity).

Definition skip : prog unit := ret tt.
Definition continue_ : prog unit := fun w => (Continue, [], w).
Definition break_ : prog unit := fun w => (Break, [], w).
Definition return_ (v : value) : prog unit := fun w => (Return v, [], w).
Definition raise {A} (e : exn) : prog A := fun w => (Raise e, [], w).

Definition lift {A} (r : result A) : prog A :=
  match r with
  | inl e => raise e
  | inr a => ret a
  end.

(** Whether [print(v)] can write its text.  The text of [None], of a
    boolean and of an integer is ASCII, which every codec of standard
    output encodes; so is a string of ASCII characters.  Any other string
    is written as it is, and a list or a dict by its [repr]: the codec
    decides. *)
Definition writable (v : value) : bool :=
  match v with
  | JNull | JBool _ | JNum _ => true
  | JStr s => is_ascii s || encodes v
  | JArr _ | JObj _ => encodes v
  end.

(** [print(v)]: the text is encoded before anything is written, so a text
    the codec rejects raises with nothing printed. *)
Definition print (v : value) : prog unit :=
  fun w =>
    if writable v then (Done tt, [Printed v], w)
    else (Raise UnicodeEncodeError, [], w).

Definition request_json (r : request) : prog value :=
  fun w =>
    let '(res, w1) := respond r w in
    (match res with inl e => Raise e | inr v => Done v end, [Sent r], w1).

(** A [for] loop over the enumerated elements: [continue] goes to the next
    element, [break] leaves the loop, [return] and an exception leave the
    enclosing function. *)
Fixpoint for_ (xs : list value) (body : value -> prog unit) : prog unit :=
  fun w =>
    match xs with
    | [] => (Done tt, [], w)
    | x :: r =>
        let '(o, t, w1) := body x w in
        match o with
        | Done _ | Continue =>
            let '(o2, t2, w2) := for_ r body w1 in (o2, t ++ t2, w2)
        | Break => (Done tt, t, w1)
        | Return v => (Return v, t, w1)
        | Raise e => (Raise e, t, w1)
        end
    end.

Definition for_in (v : value) (body : value -> prog unit) : prog unit :=
  xs <- lift (iter v) ;; for_ xs body.

(** A function call: the value of [return], or [None] when the body runs
    to its end. *)
Definition call (body : prog unit) : prog value :=
  fun w =>
    let '(o, t, w1) := body w in
    (match o with
     | Done _ => Done JNull
     | Return v => Done v
     | Raise e => Raise e
     | Continue | Break => Raise SyntaxError
     end, t, w1).

(** ** The script *)

(** [get_stream(id)], lines 36-44 *)
Definition get_stream (id : value) : prog value :=
  call (
    stream_data <- request_json (Tune id) ;;
    (body <- lift (getitem stream_data "body") ;;
     for_in body (fun stream =>
       media_type <- lift (getitem stream "media_type") ;;
       if eq_str media_type "mp3" then
         (url <- lift (getitem stream "url") ;; return_ url) ;;
         break_
       else skip)) ;;
    body <- lift (getitem stream_data "body") ;;
    n <- lift (len body) ;;
    if Nat.ltb 0 n then
      body <- lift (getitem stream_data "body") ;;
      first <- lift (getindex body 0) ;;
      url <- lift (getitem first "url") ;;
      return_ url
    else skip).

(** [get_pod_info(id)], lines 46-52 *)
Definition get_pod_info (id : value) : prog value :=
  call (
    pod_info <- request_json (Contents id) ;;
    items <- lift (getitem pod_info "Items") ;;
    for_in items (fun x =>
      list <- lift (method_get x "Children") ;;
      if truthy list then
        for_in list (fun y =>
          guide_id <- lift (getitem y "GuideId") ;;
          return_ guide_id)
      else skip)).

(** Lines 69-80 of the [else] block of the inner loop: the diagnostics,
    the title and the type, and the value of [id] when line 81 is reached
    (line 80 assigns to it). *)
Definition cell_head (cell id : value) : prog value :=
  content_info <- lift (method_get cell "ContentInfo") ;;
  seo_info <- lift (method_get cell "SEOInfo") ;;
  (if negb (truthy seo_info) then
     print (JStr "no seo info! skipping") ;; continue_
   else skip) ;;
  (title <- lift (getitem seo_info "Title") ;; print title) ;;
  if truthy content_info then
    ty <- lift (getitem content_info "Type") ;;
    (if eq_str ty "Audiobook" then continue_ else skip) ;;
    (ty <- lift (getitem content_info "Type") ;; print ty) ;;
    ty <- lift (getitem content_info "Type") ;;
    if negb (eq_str ty "Station") then get_pod_info id else ret id
  else ret id.

(** The [else] block of the inner loop, lines 69-81. *)
Definition cell_block (cell id : value) : prog unit :=
  id <- cell_head cell id ;;
  url <- get_stream id ;;
  print url.

(** The body of the inner loop, lines 59-81. *)
Definition item_body (ite : value) : prog unit :=
  cell <- lift (next_cell ite) ;;
  id <- lift (method_get cell "GuideId") ;;
  (if negb (truthy id) then continue_ else skip) ;;
  if negb (truthy id) then
    print (JStr "didnt find cell!")
  else
    cell_block cell id.

(** [item_body] with an arbitrary statement at line 67. *)
Definition item_body_patched (line67 : prog unit) (ite : value) : prog unit :=
  cell <- lift (next_cell ite) ;;
  id <- lift (method_get cell "GuideId") ;;
  (if negb (truthy id) then continue_ else skip) ;;
  if negb (truthy id) then
    line67
  else
    cell_block cell id.

(** [item_body] with the two checks of [id] collapsed to the first. *)
Definition item_body_one_guard (ite : value) : prog unit :=
  cell <- lift (next_cell ite) ;;
  id <- lift (method_get cell "GuideId") ;;
  (if negb (truthy id) then continue_ else skip) ;;
  cell_block cell id.

(** The body of the outer loop, lines 55-58, over a given inner body. *)
Definition entry_loop (body : value -> prog unit) (item : value) : prog unit :=
  l <- lift (method_get item "List") ;;
  list <- (if truthy l then ret l else lift (method_get item "Gallery")) ;;
  (if negb (truthy list) then continue_ else skip) ;;
  items <- lift (getitem list "Items") ;;
  for_in items body.

Definition entry_body : value -> prog unit := entry_loop item_body.

(** The script, lines 13, 34 and 54, over a given inner body. *)
Definition script_with (body : value -> prog unit) (keyword : string) : prog unit :=
  fav_data <- request_json (Profiles keyword) ;;
  items <- lift (getitem fav_data "Items") ;;
  for_in items (entry_loop body).

Definition script : string -> prog unit := script_with item_body.

End Script.

Arguments ret {World A} a _.
Arguments bind {World A B} m f _.
Arguments skip {World} _.
Arguments continue_ {World} _.
Arguments break_ {World} _.
Arguments return_ {World} v _.
Arguments raise {World A} e _.
Arguments lift {World A} r _.
Arguments print {World} encodes v _.
Arguments request_json {World} respond r _.
Arguments for_ {World} xs body _.
Arguments for_in {World} v body _.
Arguments call {World} body _.
Arguments get_stream {World} respond id _.
Arguments get_pod_info {World} respond id _.
Arguments cell_head {World} respond encodes cell id _.
Arguments cell_block {World} respond encodes cell id _.
Arguments item_body {World} respond encodes ite _.
Arguments item_body_patched {World} respond encodes line67 ite _.
Arguments item_body_one_guard {World} respond encodes ite _.
Arguments entry_loop {World} body item _.
Arguments entry_body {World} respond encodes _ _.
Arguments script_with {World} respond body keyword _.
Arguments script {World} respond encodes _ _.

(** ** The selection policies in the words of the specification *)

(** A stream descriptor: a record with a media type tag and a URL. *)
Definition is_descriptor (c : value) : bool :=
  match getitem c "media_type", getitem c "url" with
  | inr _, inr _ => true
  | _, _ => false
  end.

(** A field of a record, [None] when the record does not have it. *)
Definition field (c : value) (k : string) : value :=
  match getitem c k with
  | inr v => v
  | inl _ => JNull
  end.

Definition preferred (c : value) : bool := eq_str (field c "media_type") "mp3".

(** The first candidate of the preferred type, else the first candidate,
    else nothing. *)
Definition select_stream (candidates : list value) : value :=
  match find preferred candidates with
  | Some c => field c "url"
  | None =>
      match candidates with
      | c :: _ => field c "url"
      | [] => JNull
      end
  end.

Definition is_dict (v : value) : bool :=
  match v with
  | JObj _ => true
  | _ => false
  end.

(** An item of a content listing has a Children group when the value of
    its "Children" key is truthy. *)
Definition has_children (x : value) : bool := truthy (field x "Children").

(** The first child of a Children group that is a non-empty list. *)
Definition first_child (x : value) : option value :=
  match field x "Children" with
  | JArr (y :: _) => Some y
  | _ => None
  end.

(** The identifier of the first child of the first item that has a
    Children group, else nothing. *)
Definition latest_episode (items : list value) : value :=
  match find has_children items with
  | Some x =>
      match first_child x with
      | Some y => field y "GuideId"
      | None => JNull
      end
  | None => JNull
  end.

(** The first Children group of a listing, when there is one, is a list
    whose first child is a record with a GuideId. *)
Definition first_group_ok (items : list value) : bool :=
  match find has_children items with
  | Some x =>
      match first_child x with
      | Some y => match getitem y "GuideId" with inr _ => true | inl _ => false end
      | None => false
      end
  | None => true
  end.

(** ** Reading the result of a run *)

Definition outcome_of {A W : Type} (r : outcome A * list event * W) : outcome A :=
  fst (fst r).

Definition trace_of {A W : Type} (r : outcome A * list event * W) : list event :=
  snd (fst r).

(** A run that comes after the events [t]. *)
Definition after {A W : Type} (t : list event) (r : outcome A * list event * W)
  : outcome A * list event * W :=
  let '(o, t2, w) := r in (o, t ++ t2, w).

(** A statement that sends nothing, prints nothing and leaves the world
    as it is. *)
Definition silent {A W : Type} (m : W -> outcome A * list event * W) : Prop :=
  forall w, exists o, m w = (o, [], w).

(** ** A sample service *)

Module Sample.

Definition dict_of (kvs : list (string * string)) : value :=
  JObj (map (fun kv => (fst kv, JStr (snd kv))) kvs).

Definition cell (id title : string) (type : option string) : value :=
  JObj (("GuideId", JStr id) :: ("SEOInfo", dict_of [("Title", title)]) ::
        match type with
        | Some ty => [("ContentInfo", dict_of [("Type", ty)])]
        | None => []
        end).

Definition station_item : value := JObj [("StationCell", cell "s1" "Radio One" (Some "Station"))].
Definition show_item : value := JObj [("ShowCell", cell "p1" "Some Show" (Some "Show"))].
Definition ended_show_item : value := JObj [("ShowCell", cell "p2" "Ended Show" (Some "Show"))].
Definition audiobook_item : value := JObj [("BookCell", cell "a1" "A Book" (Some "Audiobook"))].
Definition no_seo_item : value := JObj [("PlainCell", JObj [("GuideId", JStr "s2")])].
Definition silent_item : value := JObj [("SilentCell", cell "s3" "Silent" None)].
Definition no_cell_item : value := JObj [("Foo", JNum 1)].

Definition bare_entry : value := JObj [("Title", JStr "no container")].

Definition aac_then_mp3 : list value :=
  [dict_of [("media_type", "aac"); ("url", "A")];
   dict_of [("media_type", "mp3"); ("url", "B")]].

Definition aac_only : list value :=
  [dict_of [("media_type", "aac"); ("url", "A")]].

Definition late_children : list value :=
  [JObj []; JObj [("Children", JArr [dict_of [("GuideId", "e1")]])]].

Definition no_children : list value :=
  [JObj [("Children", JArr [])]; JObj []].

Definition favorites (items : list value) : value :=
  JObj [("Items", JArr [bare_entry; JObj [("List", JObj [("Items", JArr items)])]])].

(** A surrogate code point in UTF-8 bytes: 237, then a byte of 160 or
    more. *)
Fixpoint has_surrogate (s : string) : bool :=
  match s with
  | String c ((String d _) as r) =>
      (Nat.eqb (nat_of_ascii c) 237 && Nat.leb 160 (nat_of_ascii d))
      || has_surrogate r
  | _ => false
  end.

(** A standard output in UTF-8: it encodes every string without
    surrogate, and the [repr] of every list and dict. *)
Definition encodes (v : value) : bool :=
  match v with
  | JStr s => negb (has_surrogate s)
  | _ => true
  end.

(** The world of the sample is the listing the profiles endpoint serves. *)
Definition respond (r : request) (w : list value) : result value * list value :=
  (match r with
   | Profiles _ => inr (favorites w)
   | Tune (JStr "s1") => inr (JObj [("body", JArr aac_then_mp3)])
   | Tune (JStr "e1") => inr (JObj [("body", JArr aac_only)])
   | Tune _ => inr (JObj [("body", JArr [])])
   | Contents (JStr "p1") => inr (JObj [("Items", JArr late_children)])
   | Contents _ => inr (JObj [("Items", JArr no_children)])
   end, w).

End Sample.


(** ** Shapes of responses and of traces *)

(** The requests of a trace, in order. *)
Fixpoint requests (t : list event) : list request :=
  match t with
  | [] => []
  | Sent r :: rest => r :: requests rest
  | Printed _ :: rest => requests rest
  end.

Definition is_profiles (r : request) : bool :=
  match r with
  | Profiles _ => true
  | _ => false
  end.

(** What [for x in data[k]] enumerates in the answer to a request: the
    exception of the request, of the subscript or of the iteration when
    one of them fails. *)
Definition enumerated (res : result value) (k : string) : result (list value) :=
  match res with
  | inl e => inl e
  | inr data =>
      match getitem data k with
      | inl e => inl e
      | inr b => iter b
      end
  end.

(** A candidate with a media type that is not the preferred one. *)
Definition other_type (c : value) : bool :=
  match getitem c "media_type" with
  | inr media_type => negb (eq_str media_type "mp3")
  | inl _ => false
  end.

(** An item of a content listing without a Children group. *)
Definition childless (x : value) : bool := is_dict x && negb (has_children x).

(** An outcome a loop does not pass on to the function around it. *)
Definition stays_in_loop {A : Type} (o : outcome A) : bool :=
  match o with
  | Done _ | Continue | Raise _ => true
  | Break | Return _ => false
  end.

(** The outcome of a call: a value or an exception. *)
Definition call_result {A : Type} (o : outcome A) : bool :=
  match o with
  | Done _ | Raise _ => true
  | _ => false
  end.

(** The requests one item may send: at most one contents request, then
    at most one stream request. *)
Definition item_requests (rs : list request) : bool :=
  match rs with
  | [] | [Tune _] | [Contents _] | [Contents _; Tune _] => true
  | _ => false
  end.

(** A favourite entry without container. *)
Definition bare (item : value) : bool :=
  is_dict item && negb (truthy (field item "List"))
  && negb (truthy (field item "Gallery")).

(** ** A service with malformed answers *)

Module Faulty.

Definition rec (kvs : list (string * string)) : value := Sample.dict_of kvs.

Definition body (cands : list value) : result value := inr (JObj [("body", JArr cands)]).

Definition listing (items : list value) : result value := inr (JObj [("Items", JArr items)]).

Definition group (children : list value) : value := JObj [("Children", JArr children)].

(** An mp3 candidate after one without URL and before a number. *)
Definition late_mp3 : list value :=
  [rec [("media_type", "aac")]; rec [("media_type", "mp3"); ("url", "M")]; JNum 7].

(** No mp3 candidate; only the first has a URL. *)
Definition first_url_only : list value :=
  [rec [("media_type", "aac"); ("url", "F")]; rec [("media_type", "ogg")]].

Definition untyped_second : list value :=
  [rec [("media_type", "aac"); ("url", "A")]; rec [("url", "U")];
   rec [("media_type", "mp3"); ("url", "M")]].

Definition mp3_without_url : list value :=
  [rec [("media_type", "mp3")]; rec [("media_type", "mp3"); ("url", "M")]].

Definition deep_children : list value :=
  [JObj []; group []; group [rec [("GuideId", "g")]; JNum 5]; JStr "junk"].

Definition child_without_id : list value :=
  [group [rec [("Title", "t")]; rec [("GuideId", "late")]];
   group [rec [("GuideId", "later")]]].

(** The UTF-8 bytes of the lone surrogate U+D800, which [json()] yields
    for the escape of that code point. *)
Definition lone_surrogate : string :=
  String (ascii_of_nat 237) (String (ascii_of_nat 160)
    (String (ascii_of_nat 128) EmptyString)).

(** Items whose title no UTF-8 standard output can write. *)
Definition unwritable_item (type : option string) : value :=
  JObj [("XCell", Sample.cell "s1" lone_surrogate type)].

Definition unwritable_kind_item : value :=
  JObj [("XCell",
         JObj [("GuideId", JStr "s1"); ("SEOInfo", rec [("Title", lone_surrogate)]);
               ("ContentInfo", rec [("Kind", "k")])])].

(** A show whose type no UTF-8 standard output can write. *)
Definition unwritable_type_item : value :=
  JObj [("XCell", Sample.cell "p1" "Some Show" (Some lone_surrogate))].

(** A Cell without GuideId. *)
Definition anonymous_item : value :=
  JObj [("XCell", JObj [("SEOInfo", rec [("Title", "Nobody")])])].

(** A Cell whose SEOInfo has no Title. *)
Definition untitled_item : value :=
  JObj [("XCell", JObj [("GuideId", JStr "s1"); ("SEOInfo", rec [("Name", "n")])])].

(** A Cell whose ContentInfo has no Type. *)
Definition kind_cell : value :=
  JObj [("GuideId", JStr "s1"); ("SEOInfo", rec [("Title", "Kind")]);
        ("ContentInfo", rec [("Kind", "k")])].

Definition kind_item : value := JObj [("XCell", kind_cell)].

(** The station of the sample under another key, with other fields. *)
Definition renamed_cell : value :=
  JObj [("Extra", JNum 1); ("ContentInfo", rec [("Type", "Station")]);
        ("GuideId", JStr "s1"); ("SEOInfo", rec [("Title", "Radio One")])].

Definition renamed_item : value :=
  JObj [("Logo", JStr "x"); ("AnyCell", renamed_cell); ("OtherCell", JNull)].

Definition station_list : value := JObj [("Items", JArr [Sample.station_item])].

Definition list_and_gallery : value :=
  JObj [("List", station_list); ("Gallery", JObj [("Items", JArr [Sample.show_item])])].

Definition list_only : value := JObj [("Title", JStr "t"); ("List", station_list)].

Definition gallery_only : value := JObj [("List", JArr []); ("Gallery", station_list)].

Definition list_without_items : value := JObj [("List", rec [("Things", "none")])].

Definition answer (r : request) : result value :=
  match r with
  | Profiles "down" => inl (RequestError "timeout")
  | Profiles "bad" => inr (JObj [])
  | Profiles _ => listing [Sample.bare_entry; JObj [("Gallery", JNull)]]
  | Tune (JStr "late") => body late_mp3
  | Tune (JStr "first") => body first_url_only
  | Tune (JStr "untyped") => body untyped_second
  | Tune (JStr "nourl") => body mp3_without_url
  | Tune (JStr "down") => inl (RequestError "timeout")
  | Tune (JStr "nobody") => inr (JObj [])
  | Tune (JStr "null") => inr (JObj [("body", JNull)])
  | Tune (JStr "text") => inr (JObj [("body", JStr "")])
  | Tune _ => body Sample.aac_then_mp3
  | Contents (JStr "deep") => listing deep_children
  | Contents (JStr "noid") => listing child_without_id
  | Contents (JStr "junk") => listing [JObj []; JStr "junk"]
  | Contents (JStr "flag") => listing [JObj [("Children", JBool true)]]
  | Contents (JStr "down") => inl (RequestError "timeout")
  | Contents _ => inr (JObj [])
  end.

(** The world counts the requests answered. *)
Definition respond (r : request) (n : nat) : result value * nat := (answer r, S n).

End Faulty.

(** ** Properties *)

Section Properties.

Context {World : Type}.
Variable respond : request -> World -> result value * World.
Variable encodes : value -> bool.

(** *** Values *)

Lemma getitem_truthy (v x : value) (k : string) :
  getitem v k = inr x -> truthy v = true.
Proof.
  destruct v as [| | | | |o]; simpl; try discriminate.
  destruct o as [|kv o]; simpl; [discriminate | reflexivity].
Qed.

Lemma getitem_field (v x : value) (k : string) :
  getitem v k = inr x -> field v k = x.
Proof. unfold field. intros ->. reflexivity. Qed.

Lemma method_get_field (v x : value) (k : string) :
  method_get v k = inr x -> field v k = x.
Proof.
  destruct v as [| | | | |o]; simpl; try discriminate.
  unfold field; simpl. destruct (assoc k o); intros [= <-]; reflexivity.
Qed.

Lemma is_dict_method_get (v : value) (k : string) :
  is_dict v = true -> method_get v k = inr (field v k).
Proof.
  destruct v as [| | | | |o]; simpl; try discriminate.
  intros _. unfold field; simpl. destruct (assoc k o); reflexivity.
Qed.

(** *** Statements *)

Lemma after_nil {A : Type} (r : outcome A * list event * World) :
  after [] r = r.
Proof. destruct r as [[o t] w]. reflexivity. Qed.

Lemma after_after {A : Type} (t1 t2 : list event) (r : outcome A * list event * World) :
  after t1 (after t2 r) = after (t1 ++ t2) r.
Proof. destruct r as [[o t] w]. simpl. rewrite app_assoc. reflexivity. Qed.

Lemma bind_ret {A B : Type} (a : A) (f : A -> prog World B) (w : World) :
  bind (ret a) f w = f a w.
Proof. unfold bind, ret. destruct (f a w) as [[o t] w1]. reflexivity. Qed.

Lemma bind_lift_inr {A B : Type} (a : A) (f : A -> prog World B) (w : World) :
  bind (lift (inr a)) f w = f a w.
Proof. apply bind_ret. Qed.

Lemma bind_lift_inl {A B : Type} (e : exn) (f : A -> prog World B) (w : World) :
  bind (lift (inl e)) f w = (Raise e, [], w).
Proof. reflexivity. Qed.

Lemma bind_skip {B : Type} (f : unit -> prog World B) (w : World) :
  bind skip f w = f tt w.
Proof. apply bind_ret. Qed.

Lemma bind_continue {B : Type} (f : unit -> prog World B) (w : World) :
  bind continue_ f w = (Continue, [], w).
Proof. reflexivity. Qed.

Lemma bind_return {B : Type} (v : value) (f : unit -> prog World B) (w : World) :
  bind (return_ v) f w = (Return v, [], w).
Proof. reflexivity. Qed.

Lemma bind_print {B : Type} (v : value) (f : unit -> prog World B) (w : World) :
  writable encodes v = true ->
  bind (print encodes v) f w = after [Printed v] (f tt w).
Proof. unfold bind, print. intros ->. reflexivity. Qed.

Lemma bind_print_fails {B : Type} (v : value) (f : unit -> prog World B) (w : World) :
  writable encodes v = false ->
  bind (print encodes v) f w = (Raise UnicodeEncodeError, [], w).
Proof. unfold bind, print. intros ->. reflexivity. Qed.

Lemma bind_assoc {A B C : Type} (m : prog World A) (f : A -> prog World B)
    (g : B -> prog World C) (w : World) :
  bind (bind m f) g w = bind m (fun x => bind (f x) g) w.
Proof.
  unfold bind. destruct (m w) as [[o t] w1]. destruct o; try reflexivity.
  destruct (f a w1) as [[o2 t2] w2]. destruct o2; try reflexivity.
  destruct (g a0 w2) as [[o3 t3] w3]. rewrite app_assoc. reflexivity.
Qed.

Lemma bind_run {A B : Type} (m : prog World A) (f : A -> prog World B)
    (w w1 : World) (a : A) (t : list event) :
  m w = (Done a, t, w1) -> bind m f w = after t (f a w1).
Proof. unfold bind. intros ->. reflexivity. Qed.

Lemma for_nil (body : value -> prog World unit) (w : World) :
  for_ [] body w = (Done tt, [], w).
Proof. reflexivity. Qed.

Lemma for_next (body : value -> prog World unit) (x : value) (r : list value)
    (w w1 : World) (t : list event) (o : outcome unit) :
  body x w = (o, t, w1) -> o = Done tt \/ o = Continue ->
  for_ (x :: r) body w = after t (for_ r body w1).
Proof.
  intros E [-> | ->]; simpl; rewrite E; reflexivity.
Qed.

Lemma for_return (body : value -> prog World unit) (x v : value) (r : list value)
    (w w1 : World) (t : list event) :
  body x w = (Return v, t, w1) -> for_ (x :: r) body w = (Return v, t, w1).
Proof. intros E. simpl. rewrite E. reflexivity. Qed.

Lemma for_raise (body : value -> prog World unit) (x : value) (e : exn)
    (r : list value) (w w1 : World) (t : list event) :
  body x w = (Raise e, t, w1) -> for_ (x :: r) body w = (Raise e, t, w1).
Proof. intros E. simpl. rewrite E. reflexivity. Qed.

(** A loop whose bodies agree on every element and world is the same loop. *)
Lemma for_ext (f g : value -> prog World unit) (xs : list value) :
  (forall x w, f x w = g x w) -> forall w, for_ xs f w = for_ xs g w.
Proof.
  intros Hfg. induction xs as [|x r IH]; intros w; simpl.
  - reflexivity.
  - rewrite Hfg. destruct (g x w) as [[o t] w1].
    destruct o; try reflexivity; rewrite IH; reflexivity.
Qed.

Lemma bind_ext {A B : Type} (m : prog World A) (f g : A -> prog World B) :
  (forall a w, f a w = g a w) -> forall w, bind m f w = bind m g w.
Proof.
  intros Hfg w. unfold bind. destruct (m w) as [[o t] w1].
  destruct o; try reflexivity. rewrite Hfg. reflexivity.
Qed.

(** *** get_stream *)

(** One round of the loop of [get_stream] on a well-formed candidate. *)
Lemma stream_round (c : value) (w : World) :
  is_descriptor c = true ->
  bind (lift (getitem c "media_type")) (fun media_type =>
    if eq_str media_type "mp3" then
      bind (bind (lift (getitem c "url")) (fun url => return_ url))
           (fun _ => break_)
    else skip) w
  = (if preferred c then Return (field c "url") else Done tt, [], w).
Proof.
  unfold is_descriptor, preferred, field.
  destruct (getitem c "media_type") as [e|mt]; [discriminate|].
  destruct (getitem c "url") as [e|u]; [discriminate|]. intros _.
  rewrite bind_lift_inr. destruct (eq_str mt "mp3"); reflexivity.
Qed.

(** The loop of [get_stream] over well-formed candidates: it returns the
    URL of the first one of the preferred type, or runs to its end. *)
Lemma stream_loop (cands : list value) (w : World) :
  forallb is_descriptor cands = true ->
  for_ cands (fun stream =>
    bind (lift (getitem stream "media_type")) (fun media_type =>
      if eq_str media_type "mp3" then
        bind (bind (lift (getitem stream "url")) (fun url => return_ url))
             (fun _ => break_)
      else skip)) w
  = (match find preferred cands with
     | Some c => Return (field c "url")
     | None => Done tt
     end, [], w).
Proof.
  induction cands as [|c r IH]; intros Hwf.
  - reflexivity.
  - simpl in Hwf. apply andb_prop in Hwf as [Hc Hr].
    cbn [find]. destruct (preferred c) eqn:Ep.
    + apply for_return. rewrite (stream_round c w Hc), Ep. reflexivity.
    + erewrite for_next; [| rewrite (stream_round c w Hc), Ep; reflexivity | now left].
      rewrite after_nil. exact (IH Hr).
Qed.

Lemma silent_lift {A : Type} (r : result A) : silent (lift (World:=World) r).
Proof. intros w. destruct r; eexists; reflexivity. Qed.

Lemma silent_ret {A : Type} (a : A) : silent (ret (World:=World) a).
Proof. intros w. eexists; reflexivity. Qed.

Lemma silent_skip : silent (skip (World:=World)).
Proof. intros w. eexists; reflexivity. Qed.

Lemma silent_return (v : value) : silent (return_ (World:=World) v).
Proof. intros w. eexists; reflexivity. Qed.

Lemma silent_break : silent (break_ (World:=World)).
Proof. intros w. eexists; reflexivity. Qed.

Lemma silent_bind {A B : Type} (m : prog World A) (f : A -> prog World B) :
  silent m -> (forall a, silent (f a)) -> silent (bind m f).
Proof.
  intros Hm Hf w. unfold bind. destruct (Hm w) as [o ->].
  destruct o; try (eexists; reflexivity).
  destruct (Hf a w) as [o2 ->]. eexists; reflexivity.
Qed.

Lemma silent_if {A : Type} (b : bool) (m1 m2 : prog World A) :
  silent m1 -> silent m2 -> silent (if b then m1 else m2).
Proof. destruct b; auto. Qed.

Lemma silent_for (xs : list value) (body : value -> prog World unit) :
  (forall x, silent (body x)) -> silent (for_ xs body).
Proof.
  intros Hb. induction xs as [|x r IH]; intros w; simpl.
  - eexists; reflexivity.
  - destruct (Hb x w) as [o ->].
    destruct o; try (eexists; reflexivity);
      destruct (IH w) as [o2 ->]; eexists; reflexivity.
Qed.

Lemma silent_for_in (v : value) (body : value -> prog World unit) :
  (forall x, silent (body x)) -> silent (for_in v body).
Proof.
  intros Hb. unfold for_in. apply silent_bind.
  - apply silent_lift.
  - intros xs. apply silent_for, Hb.
Qed.

Ltac silence :=
  repeat match goal with
         | |- silent (bind _ _) => apply silent_bind
         | |- silent (for_in _ _) => apply silent_for_in
         | |- silent (if _ then _ else _) => apply silent_if
         | |- silent (lift _) => apply silent_lift
         | |- silent (ret _) => apply silent_ret
         | |- silent skip => apply silent_skip
         | |- silent (return_ _) => apply silent_return
         | |- silent break_ => apply silent_break
         | |- forall _, _ => intro; cbv beta
         end.

(** After a request, a call whose remaining statements are silent has
    sent that request and nothing else. *)
Lemma call_request_trace (r : request) (k : value -> prog World unit) (w : World) :
  (forall v, silent (k v)) ->
  trace_of (call (bind (request_json respond r) k) w) = [Sent r].
Proof.
  intros Hk. unfold call, bind, request_json.
  destruct (respond r w) as [[e|v] w1]; [reflexivity|].
  destruct (Hk v w1) as [o ->]. reflexivity.
Qed.

(** [get_stream] sends one request, whatever comes of it. *)
Lemma get_stream_trace (id : value) (w : World) :
  trace_of (get_stream respond id w) = [Sent (Tune id)].
Proof.
  unfold get_stream. apply call_request_trace. intros v.
  silence.
Qed.

(** [get_pod_info] sends one request, whatever comes of it. *)
Lemma get_pod_info_trace (id : value) (w : World) :
  trace_of (get_pod_info respond id w) = [Sent (Contents id)].
Proof.
  unfold get_pod_info. apply call_request_trace. intros v.
  silence.
Qed.

Lemma request_json_ok (r : request) (w w1 : World) (data : value) :
  respond r w = (inr data, w1) ->
  request_json respond r w = (Done data, [Sent r], w1).
Proof. unfold request_json. intros ->. reflexivity. Qed.

Lemma for_in_list (l : list value) (body : value -> prog World unit) (w : World) :
  for_in (JArr l) body w = for_ l body w.
Proof. unfold for_in. simpl iter. rewrite bind_lift_inr. reflexivity. Qed.

(** [get_stream] on a response whose candidates are stream descriptors. *)
Lemma get_stream_candidates (id data : value) (cands : list value) (w w1 : World) :
  respond (Tune id) w = (inr data, w1) ->
  getitem data "body" = inr (JArr cands) ->
  forallb is_descriptor cands = true ->
  get_stream respond id w
  = (Done match find preferred cands with
          | Some c => field c "url"
          | None => match cands with
                    | c :: _ => field c "url"
                    | [] => JNull
                    end
          end,
     [Sent (Tune id)], w1).
Proof.
  intros Hresp Hbody Hwf. unfold get_stream, call.
  rewrite (bind_run _ _ _ _ _ _ (request_json_ok _ _ _ _ Hresp)).
  rewrite bind_assoc, Hbody, bind_lift_inr.
  unfold bind at 1. rewrite for_in_list, (stream_loop cands w1 Hwf).
  destruct (find preferred cands) as [c|] eqn:Efind.
  - reflexivity.
  - rewrite bind_lift_inr. simpl len. rewrite bind_lift_inr.
    destruct cands as [|c r].
    + reflexivity.
    + cbn [Nat.ltb Nat.leb List.length].
      rewrite bind_lift_inr. cbn [getindex nth_error]. rewrite bind_lift_inr.
      simpl in Hwf. apply andb_prop in Hwf as [Hc _]. unfold is_descriptor in Hc.
      unfold field.
      destruct (getitem c "media_type"); [discriminate|].
      destruct (getitem c "url") as [e|u]; [discriminate|].
      reflexivity.
Qed.

(** C1.  For every stream response whose candidates are stream
    descriptors, [get_stream] sends the one request and returns what the
    selection policy selects: the URL of the first candidate whose media
    type is mp3; when no candidate has that type, the URL of the first
    candidate in response order; when there is no candidate, [None]. *)
Theorem get_stream_policy (id data : value) (cands : list value) (w w1 : World) :
  respond (Tune id) w = (inr data, w1) ->
  getitem data "body" = inr (JArr cands) ->
  forallb is_descriptor cands = true ->
  get_stream respond id w = (Done (select_stream cands), [Sent (Tune id)], w1)
  /\ (forall c, find preferred cands = Some c ->
        select_stream cands = field c "url")
  /\ (forall c rest, find preferred cands = None -> cands = c :: rest ->
        select_stream cands = field c "url")
  /\ (cands = [] -> select_stream cands = JNull).
Proof.
  intros Hresp Hbody Hwf. split; [|split; [|split]].
  - exact (get_stream_candidates id data cands w w1 Hresp Hbody Hwf).
  - intros c Hc. unfold select_stream. rewrite Hc. reflexivity.
  - intros c rest Hnone ->. unfold select_stream. rewrite Hnone. reflexivity.
  - intros ->. reflexivity.
Qed.

(** *** get_pod_info *)

(** The loop of [get_pod_info] over a listing of records: it returns from
    inside the first Children group, or runs to its end when no item has
    one. *)
Lemma pod_loop (items : list value) (w : World) :
  forallb is_dict items = true ->
  first_group_ok items = true ->
  for_ items (fun x =>
    bind (lift (method_get x "Children")) (fun list =>
      if truthy list then
        for_in list (fun y =>
          bind (lift (getitem y "GuideId")) (fun guide_id => return_ guide_id))
      else skip)) w
  = (match find has_children items with
     | Some _ => Return (latest_episode items)
     | None => Done tt
     end, [], w).
Proof.
  unfold first_group_ok, latest_episode.
  induction items as [|x r IH]; intros Hd Hok.
  - reflexivity.
  - simpl in Hd. apply andb_prop in Hd as [Hx Hr].
    cbn [find] in *. destruct (has_children x) eqn:Ech.
    + apply for_return. cbv beta.
      rewrite (is_dict_method_get x "Children" Hx), bind_lift_inr.
      unfold has_children in Ech. rewrite Ech.
      unfold first_child in *.
      destruct (field x "Children") as [| | | |[|y ys]|]; try discriminate.
      rewrite for_in_list.
      destruct (getitem y "GuideId") as [e|g] eqn:Eg; [discriminate|].
      apply for_return. cbv beta. rewrite Eg, bind_lift_inr.
      rewrite (getitem_field _ _ _ Eg). reflexivity.
    + erewrite for_next; [rewrite after_nil; exact (IH Hr Hok) | | now left].
      cbv beta. rewrite (is_dict_method_get x "Children" Hx), bind_lift_inr.
      unfold has_children in Ech. rewrite Ech. reflexivity.
Qed.

Lemma get_pod_info_listing (id pod : value) (items : list value) (w w1 : World) :
  respond (Contents id) w = (inr pod, w1) ->
  getitem pod "Items" = inr (JArr items) ->
  forallb is_dict items = true ->
  first_group_ok items = true ->
  get_pod_info respond id w = (Done (latest_episode items), [Sent (Contents id)], w1).
Proof.
  intros Hresp Hitems Hd Hok. unfold get_pod_info, call.
  rewrite (bind_run _ _ _ _ _ _ (request_json_ok _ _ _ _ Hresp)).
  rewrite Hitems, bind_lift_inr, for_in_list, (pod_loop items w1 Hd Hok).
  unfold latest_episode. destruct (find has_children items); reflexivity.
Qed.

(** C6, amended.  On a content listing whose items are records,
    [get_pod_info] returns the GuideId of the first child of the first
    item whose Children value is truthy, whichever position that item has
    in the listing, and [None] when no item has such a value. *)
Theorem get_pod_info_first_group (id pod : value) (items : list value) (w w1 : World) :
  respond (Contents id) w = (inr pod, w1) ->
  getitem pod "Items" = inr (JArr items) ->
  forallb is_dict items = true ->
  first_group_ok items = true ->
  get_pod_info respond id w = (Done (latest_episode items), [Sent (Contents id)], w1)
  /\ (forall x y, find has_children items = Some x -> first_child x = Some y ->
        latest_episode items = field y "GuideId")
  /\ (find has_children items = None -> latest_episode items = JNull).
Proof.
  intros Hresp Hitems Hd Hok. split; [|split].
  - exact (get_pod_info_listing id pod items w w1 Hresp Hitems Hd Hok).
  - intros x y Hx Hy. unfold latest_episode. rewrite Hx, Hy. reflexivity.
  - intros Hnone. unfold latest_episode. rewrite Hnone. reflexivity.
Qed.

(** *** The inner loop *)

Section Cell.

Variables (ite cell : value).
Hypothesis Hcell : next_cell ite = inr cell.
Hypothesis Hdict : is_dict cell = true.
Hypothesis Hid : truthy (field cell "GuideId") = true.

(** With an identifier, the body of the inner loop is its [else] block. *)
Lemma item_body_block (w : World) :
  item_body respond encodes ite w = cell_block respond encodes cell (field cell "GuideId") w.
Proof.
  unfold item_body.
  rewrite Hcell, bind_lift_inr, (is_dict_method_get cell "GuideId" Hdict), bind_lift_inr.
  rewrite Hid. cbn [negb]. rewrite bind_skip. reflexivity.
Qed.

Lemma cell_head_no_seo (w : World) :
  truthy (field cell "SEOInfo") = false ->
  cell_head respond encodes cell (field cell "GuideId") w
  = (Continue, [Printed (JStr "no seo info! skipping")], w).
Proof.
  intros Hseo. unfold cell_head.
  rewrite (is_dict_method_get cell "ContentInfo" Hdict), bind_lift_inr.
  rewrite (is_dict_method_get cell "SEOInfo" Hdict), bind_lift_inr.
  rewrite Hseo. reflexivity.
Qed.

Section Typed.

Variables (title ty : value).
Hypothesis Htitle : getitem (field cell "SEOInfo") "Title" = inr title.
Hypothesis Hty : getitem (field cell "ContentInfo") "Type" = inr ty.

Lemma cell_head_audiobook (w : World) :
  eq_str ty "Audiobook" = true ->
  cell_head respond encodes cell (field cell "GuideId") w
  = if writable encodes title then (Continue, [Printed title], w)
    else (Raise UnicodeEncodeError, [], w).
Proof.
  intros Hbook. unfold cell_head.
  rewrite (is_dict_method_get cell "ContentInfo" Hdict), bind_lift_inr.
  rewrite (is_dict_method_get cell "SEOInfo" Hdict), bind_lift_inr.
  rewrite (getitem_truthy _ _ _ Htitle). cbn [negb]. rewrite bind_skip.
  rewrite bind_assoc, Htitle, bind_lift_inr.
  destruct (writable encodes title) eqn:Hw.
  - rewrite (bind_print _ _ _ Hw).
    rewrite (getitem_truthy _ _ _ Hty), Hty, bind_lift_inr, Hbook.
    reflexivity.
  - apply bind_print_fails. exact Hw.
Qed.

Lemma cell_head_show (w : World) :
  eq_str ty "Audiobook" = false ->
  eq_str ty "Station" = false ->
  cell_head respond encodes cell (field cell "GuideId") w
  = if writable encodes title then
      if writable encodes ty then
        after [Printed title; Printed ty]
          (get_pod_info respond (field cell "GuideId") w)
      else (Raise UnicodeEncodeError, [Printed title], w)
    else (Raise UnicodeEncodeError, [], w).
Proof.
  intros Hbook Hstation. unfold cell_head.
  rewrite (is_dict_method_get cell "ContentInfo" Hdict), bind_lift_inr.
  rewrite (is_dict_method_get cell "SEOInfo" Hdict), bind_lift_inr.
  rewrite (getitem_truthy _ _ _ Htitle). cbn [negb]. rewrite bind_skip.
  rewrite bind_assoc, Htitle, bind_lift_inr.
  destruct (writable encodes title) eqn:Hw;
    [rewrite (bind_print _ _ _ Hw) | apply bind_print_fails; exact Hw].
  rewrite (getitem_truthy _ _ _ Hty), Hty, bind_lift_inr, Hbook, bind_skip.
  rewrite bind_assoc, bind_lift_inr.
  destruct (writable encodes ty) eqn:Hwty.
  - rewrite (bind_print _ _ _ Hwty), bind_lift_inr, Hstation.
    cbn [negb]. rewrite after_after. reflexivity.
  - rewrite (bind_print_fails _ _ _ Hwty). reflexivity.
Qed.

(** A show whose title and type are printed and whose latest-episode
    lookup ends with a value: the block goes on to
    [print(get_stream(...))] with that value. *)
Lemma item_body_show (w w1 : World) (id' : value) (t1 : list event) :
  eq_str ty "Audiobook" = false ->
  eq_str ty "Station" = false ->
  writable encodes title = true ->
  writable encodes ty = true ->
  get_pod_info respond (field cell "GuideId") w = (Done id', t1, w1) ->
  item_body respond encodes ite w
  = after [Printed title; Printed ty; Sent (Contents (field cell "GuideId"))]
      (bind (get_stream respond id') (print encodes) w1)
  /\ tune_ids (trace_of (item_body respond encodes ite w)) = [id'].
Proof.
  intros Hbook Hstation Hw Hwty Hpod.
  assert (Ht1 : t1 = [Sent (Contents (field cell "GuideId"))]).
  { pose proof (get_pod_info_trace (field cell "GuideId") w) as Htr.
    rewrite Hpod in Htr. exact Htr. }
  subst t1.
  assert (Hrun : item_body respond encodes ite w
    = after [Printed title; Printed ty; Sent (Contents (field cell "GuideId"))]
        (bind (get_stream respond id') (print encodes) w1)).
  { rewrite item_body_block. unfold cell_block.
    rewrite (bind_run _ _ w w1 id'
               [Printed title; Printed ty; Sent (Contents (field cell "GuideId"))]).
    - reflexivity.
    - rewrite (cell_head_show w Hbook Hstation), Hw, Hwty, Hpod. reflexivity. }
  split; [exact Hrun|].
  rewrite Hrun. pose proof (get_stream_trace id' w1) as Htr.
  unfold bind. destruct (get_stream respond id' w1) as [[o t] w2].
  unfold trace_of in Htr. simpl in Htr. subst t.
  destruct o; try reflexivity.
  unfold print. destruct (writable encodes a); reflexivity.
Qed.

(** A show sends its stream request, if any, after the lookup, for the
    value the lookup returned. *)
Lemma item_body_show_requests (w : World) :
  eq_str ty "Audiobook" = false ->
  eq_str ty "Station" = false ->
  (forall i, In i (tune_ids (trace_of (item_body respond encodes ite w))) ->
     outcome_of (get_pod_info respond (field cell "GuideId") w) = Done i)
  /\ (In (Sent (Contents (field cell "GuideId")))
         (trace_of (item_body respond encodes ite w)) ->
      writable encodes title = true /\ writable encodes ty = true).
Proof.
  intros Hbook Hstation.
  destruct (writable encodes title) eqn:Hw; [destruct (writable encodes ty) eqn:Hwty|].
  - split; [|intros _; split; reflexivity].
    destruct (get_pod_info respond (field cell "GuideId") w) as [[o t1] w1] eqn:Hpod.
    destruct o as [id'| | | |e].
    + destruct (item_body_show w w1 id' t1 Hbook Hstation Hw Hwty Hpod) as [_ Hids].
      rewrite Hids. intros i [<- | []]. reflexivity.
    + rewrite item_body_block. unfold cell_block, bind.
      rewrite (cell_head_show w Hbook Hstation), Hw, Hwty, Hpod.
      pose proof (get_pod_info_trace (field cell "GuideId") w) as Htr.
      rewrite Hpod in Htr. unfold trace_of in Htr. simpl in Htr. subst t1.
      intros i [].
    + rewrite item_body_block. unfold cell_block, bind.
      rewrite (cell_head_show w Hbook Hstation), Hw, Hwty, Hpod.
      pose proof (get_pod_info_trace (field cell "GuideId") w) as Htr.
      rewrite Hpod in Htr. unfold trace_of in Htr. simpl in Htr. subst t1.
      intros i [].
    + rewrite item_body_block. unfold cell_block, bind.
      rewrite (cell_head_show w Hbook Hstation), Hw, Hwty, Hpod.
      pose proof (get_pod_info_trace (field cell "GuideId") w) as Htr.
      rewrite Hpod in Htr. unfold trace_of in Htr. simpl in Htr. subst t1.
      intros i [].
    + rewrite item_body_block. unfold cell_block, bind.
      rewrite (cell_head_show w Hbook Hstation), Hw, Hwty, Hpod.
      pose proof (get_pod_info_trace (field cell "GuideId") w) as Htr.
      rewrite Hpod in Htr. unfold trace_of in Htr. simpl in Htr. subst t1.
      intros i [].
  - rewrite item_body_block. unfold cell_block, bind.
    rewrite (cell_head_show w Hbook Hstation), Hw, Hwty.
    split; [intros i [] | intros [H | []]; discriminate H].
  - rewrite item_body_block. unfold cell_block, bind.
    rewrite (cell_head_show w Hbook Hstation), Hw.
    split; [intros i [] | intros []].
Qed.

End Typed.
End Cell.

(** C5.  For a Cell with an identifier, a title and a ContentInfo whose
    Type is neither Station nor Audiobook, every identifier the item
    passes to [get_stream] is the result of [get_pod_info] applied to the
    original GuideId.  When [print] can write the title and the type, the
    item prints them, calls [get_pod_info] on the original GuideId and,
    when that call returns, hands its result to [get_stream]: the one Tune
    request of the item carries the result of [get_pod_info].  (When
    [print] cannot write one of them, it raises before the lookup and no
    identifier is passed at all.) *)
Theorem show_streams_latest_episode (ite cell title ty : value) (w : World) :
  next_cell ite = inr cell ->
  is_dict cell = true ->
  truthy (field cell "GuideId") = true ->
  getitem (field cell "SEOInfo") "Title" = inr title ->
  getitem (field cell "ContentInfo") "Type" = inr ty ->
  eq_str ty "Audiobook" = false ->
  eq_str ty "Station" = false ->
  (forall i, In i (tune_ids (trace_of (item_body respond encodes ite w))) ->
     outcome_of (get_pod_info respond (field cell "GuideId") w) = Done i)
  /\ (forall id' t1 w1,
        writable encodes title = true ->
        writable encodes ty = true ->
        get_pod_info respond (field cell "GuideId") w = (Done id', t1, w1) ->
        item_body respond encodes ite w
        = after [Printed title; Printed ty; Sent (Contents (field cell "GuideId"))]
            (bind (get_stream respond id') (print encodes) w1)
        /\ tune_ids (trace_of (item_body respond encodes ite w)) = [id']).
Proof.
  intros Hcell Hdict Hid Htitle Hty Hbook Hstation. split.
  - exact (proj1 (item_body_show_requests ite cell Hcell Hdict Hid title ty
                    Htitle Hty w Hbook Hstation)).
  - intros id' t1 w1 Hw Hwty Hpod.
    exact (item_body_show ite cell Hcell Hdict Hid title ty Htitle Hty
             w w1 id' t1 Hbook Hstation Hw Hwty Hpod).
Qed.

(** C10.  When the content listing of a show has no item with a Children
    group, [get_pod_info] returns [None], and the item has no guard on
    it: whenever the lookup is made, the item goes on to call
    [get_stream] with [None], and a Tune request is sent for the
    identifier [None], whose URL reads [id=None].  The lookup is made
    when [print] can write the title and the type; the trace of the item
    is then the title, the type, the lookup and [print(get_stream(None))]. *)
Theorem missing_episode_streams_None (ite cell title ty pod : value)
    (items : list value) (w w1 : World) :
  next_cell ite = inr cell ->
  is_dict cell = true ->
  truthy (field cell "GuideId") = true ->
  getitem (field cell "SEOInfo") "Title" = inr title ->
  getitem (field cell "ContentInfo") "Type" = inr ty ->
  eq_str ty "Audiobook" = false ->
  eq_str ty "Station" = false ->
  respond (Contents (field cell "GuideId")) w = (inr pod, w1) ->
  getitem pod "Items" = inr (JArr items) ->
  forallb is_dict items = true ->
  find has_children items = None ->
  get_pod_info respond (field cell "GuideId") w
  = (Done JNull, [Sent (Contents (field cell "GuideId"))], w1)
  /\ (In (Sent (Contents (field cell "GuideId")))
         (trace_of (item_body respond encodes ite w)) ->
      tune_ids (trace_of (item_body respond encodes ite w)) = [JNull])
  /\ (writable encodes title = true ->
      writable encodes ty = true ->
      item_body respond encodes ite w
      = after [Printed title; Printed ty; Sent (Contents (field cell "GuideId"))]
          (bind (get_stream respond JNull) (print encodes) w1)
      /\ tune_ids (trace_of (item_body respond encodes ite w)) = [JNull])
  /\ option_map tune_url (str JNull) = Some (tune_url "None").
Proof.
  intros Hcell Hdict Hid Htitle Hty Hbook Hstation Hresp Hitems Hd Hnone.
  assert (Hpod : get_pod_info respond (field cell "GuideId") w
                 = (Done JNull, [Sent (Contents (field cell "GuideId"))], w1)).
  { rewrite (get_pod_info_listing _ pod items w w1 Hresp Hitems Hd).
    - unfold latest_episode. rewrite Hnone. reflexivity.
    - unfold first_group_ok. rewrite Hnone. reflexivity. }
  assert (Hrun : writable encodes title = true -> writable encodes ty = true ->
    item_body respond encodes ite w
    = after [Printed title; Printed ty; Sent (Contents (field cell "GuideId"))]
        (bind (get_stream respond JNull) (print encodes) w1)
    /\ tune_ids (trace_of (item_body respond encodes ite w)) = [JNull]).
  { intros Hw Hwty.
    exact (item_body_show ite cell Hcell Hdict Hid title ty Htitle Hty
             w w1 JNull _ Hbook Hstation Hw Hwty Hpod). }
  split; [exact Hpod|]. split; [|split; [exact Hrun | reflexivity]].
  intros Hin.
  destruct (proj2 (item_body_show_requests ite cell Hcell Hdict Hid title ty
                     Htitle Hty w Hbook Hstation) Hin) as [Hw Hwty].
  exact (proj2 (Hrun Hw Hwty)).
Qed.

(** C3, amended.  For a Cell with an identifier, a title and a ContentInfo
    of Type Audiobook, the item prints its title and nothing else: no type
    line, no request, no stream line; the loop goes on with the next
    item.  (When [print] cannot write the title, it raises
    UnicodeEncodeError before anything is printed.) *)
Theorem audiobook_prints_title_only (ite cell title : value) (w : World) :
  next_cell ite = inr cell ->
  is_dict cell = true ->
  truthy (field cell "GuideId") = true ->
  getitem (field cell "SEOInfo") "Title" = inr title ->
  getitem (field cell "ContentInfo") "Type" = inr (JStr "Audiobook") ->
  item_body respond encodes ite w
  = (if writable encodes title then (Continue, [Printed title], w)
     else (Raise UnicodeEncodeError, [], w))
  /\ (writable encodes title = true ->
      forall rest, for_ (ite :: rest) (item_body respond encodes) w
                   = after [Printed title] (for_ rest (item_body respond encodes) w)).
Proof.
  intros Hcell Hdict Hid Htitle Hty.
  assert (Hrun : item_body respond encodes ite w
                 = (if writable encodes title then (Continue, [Printed title], w)
                    else (Raise UnicodeEncodeError, [], w))).
  { rewrite (item_body_block ite cell Hcell Hdict Hid). unfold cell_block, bind.
    rewrite (cell_head_audiobook cell Hdict title _ Htitle Hty w eq_refl).
    destruct (writable encodes title); reflexivity. }
  split; [exact Hrun|].
  intros Hw rest. rewrite Hw in Hrun.
  apply (for_next _ _ _ _ _ _ _ Hrun). now right.
Qed.

(** C8.  For a Cell with an identifier and no SEOInfo (absent, or
    falsy), the item prints the one diagnostic line and is skipped: no
    title, no request, no stream line; the loop goes on with the next
    item. *)
Theorem no_seo_info_skips_item (ite cell : value) (w : World) :
  next_cell ite = inr cell ->
  is_dict cell = true ->
  truthy (field cell "GuideId") = true ->
  truthy (field cell "SEOInfo") = false ->
  item_body respond encodes ite w = (Continue, [Printed (JStr "no seo info! skipping")], w)
  /\ forall rest, for_ (ite :: rest) (item_body respond encodes) w
                  = after [Printed (JStr "no seo info! skipping")]
                      (for_ rest (item_body respond encodes) w).
Proof.
  intros Hcell Hdict Hid Hseo.
  assert (Hrun : item_body respond encodes ite w
                 = (Continue, [Printed (JStr "no seo info! skipping")], w)).
  { rewrite (item_body_block ite cell Hcell Hdict Hid). unfold cell_block, bind.
    rewrite (cell_head_no_seo cell Hdict w Hseo). reflexivity. }
  split; [exact Hrun|].
  intros rest. apply (for_next _ _ _ _ _ _ _ Hrun). now right.
Qed.

(** C9.  For a favourite entry whose List and Gallery values are both
    absent or falsy, the traversal emits nothing for the entry and goes on
    with the next one. *)
Theorem entry_without_container_prints_nothing (item : value) (w : World) :
  is_dict item = true ->
  truthy (field item "List") = false ->
  truthy (field item "Gallery") = false ->
  entry_body respond encodes item w = (Continue, [], w)
  /\ forall rest, for_ (item :: rest) (entry_body respond encodes) w
                  = for_ rest (entry_body respond encodes) w.
Proof.
  intros Hdict Hlist Hgallery.
  assert (Hrun : entry_body respond encodes item w = (Continue, [], w)).
  { unfold entry_body, entry_loop.
    rewrite (is_dict_method_get item "List" Hdict), bind_lift_inr, Hlist.
    rewrite (is_dict_method_get item "Gallery" Hdict), bind_lift_inr, Hgallery.
    reflexivity. }
  split; [exact Hrun|].
  intros rest. rewrite (for_next _ _ rest _ _ _ _ Hrun); [apply after_nil | now right].
Qed.

(** C4, amended.  When the block reaches line 81 with an identifier whose
    stream response has an empty candidate list, [get_stream] returns
    [None] and the caller prints it: the URL line of the item is the text
    [None]. *)
Theorem empty_candidates_print_None (cell id id' data : value) (t1 : list event)
    (w w1 w2 : World) :
  cell_head respond encodes cell id w = (Done id', t1, w1) ->
  respond (Tune id') w1 = (inr data, w2) ->
  getitem data "body" = inr (JArr []) ->
  get_stream respond id' w1 = (Done JNull, [Sent (Tune id')], w2)
  /\ cell_block respond encodes cell id w
     = (Done tt, t1 ++ [Sent (Tune id'); Printed JNull], w2)
  /\ str JNull = Some "None".
Proof.
  intros Hhead Hresp Hbody.
  assert (Hget : get_stream respond id' w1 = (Done JNull, [Sent (Tune id')], w2)).
  { exact (get_stream_candidates id' data [] w1 w2 Hresp Hbody eq_refl). }
  split; [exact Hget|]. split; [|reflexivity].
  unfold cell_block. rewrite (bind_run _ _ _ _ _ _ Hhead).
  rewrite (bind_run _ _ _ _ _ _ Hget). reflexivity.
Qed.

(** *** The second check of [id] *)

Lemma item_body_patched_eq (line67 : prog World unit) (ite : value) (w : World) :
  item_body_patched respond encodes line67 ite w = item_body respond encodes ite w.
Proof.
  unfold item_body_patched, item_body.
  destruct (next_cell ite) as [e|cell]; [reflexivity|].
  rewrite !bind_lift_inr.
  destruct (method_get cell "GuideId") as [e|id]; [reflexivity|].
  rewrite !bind_lift_inr.
  destruct (truthy id); cbn [negb].
  - rewrite !bind_skip. reflexivity.
  - rewrite !bind_continue. reflexivity.
Qed.

Lemma item_body_one_guard_eq (ite : value) (w : World) :
  item_body_one_guard respond encodes ite w = item_body respond encodes ite w.
Proof.
  unfold item_body_one_guard, item_body.
  destruct (next_cell ite) as [e|cell]; [reflexivity|].
  rewrite !bind_lift_inr.
  destruct (method_get cell "GuideId") as [e|id]; [reflexivity|].
  rewrite !bind_lift_inr.
  destruct (truthy id); cbn [negb].
  - rewrite !bind_skip. reflexivity.
  - rewrite !bind_continue. reflexivity.
Qed.

Lemma for_in_ext (f g : value -> prog World unit) (v : value) :
  (forall x w, f x w = g x w) -> forall w, for_in v f w = for_in v g w.
Proof.
  intros Hfg w. unfold for_in. apply bind_ext. intros xs w1.
  apply for_ext, Hfg.
Qed.

Lemma entry_loop_ext (f g : value -> prog World unit) :
  (forall x w, f x w = g x w) ->
  forall item w, entry_loop f item w = entry_loop g item w.
Proof.
  intros Hfg item w. unfold entry_loop.
  apply bind_ext. intros l w1. apply bind_ext. intros list w2.
  apply bind_ext. intros _ w3. apply bind_ext. intros items w4.
  apply for_in_ext, Hfg.
Qed.

Lemma script_with_ext (f g : value -> prog World unit) :
  (forall x w, f x w = g x w) ->
  forall keyword w, script_with respond f keyword w = script_with respond g keyword w.
Proof.
  intros Hfg keyword w. unfold script_with.
  apply bind_ext. intros fav_data w1. apply bind_ext. intros items w2.
  apply for_in_ext, entry_loop_ext, Hfg.
Qed.

(** C7.  The branch of the second [if not id] is never taken: whatever
    statement stands at line 67, the script runs the same on every
    keyword and in every world; and the script with the two checks
    collapsed to one guard runs the same as well. *)
Theorem second_id_check_is_dead (line67 : prog World unit) (keyword : string)
    (w : World) :
  script_with respond (item_body_patched respond encodes line67) keyword w
  = script respond encodes keyword w
  /\ script_with respond (item_body_one_guard respond encodes) keyword w
     = script respond encodes keyword w.
Proof.
  split; unfold script; apply script_with_ext; intros x w1.
  - apply item_body_patched_eq.
  - apply item_body_one_guard_eq.
Qed.

(** *** An item without a Cell *)

(** Line 63 calls [get] on [None] when no key of the item ends with Cell. *)
Lemma item_without_cell_raises (o : list (string * value)) (w : World) :
  find (fun kv => endswith (fst kv) "Cell") o = None ->
  item_body respond encodes (JObj o) w = (Raise AttributeError, [], w).
Proof.
  intros Hnone. unfold item_body, next_cell, method_items. cbv beta iota.
  rewrite Hnone, bind_lift_inr. reflexivity.
Qed.

End Properties.

(** ** The sample service, run *)

Example endswith_samples :
  endswith "StationCell" "Cell" = true /\ endswith "Cell" "Cell" = true
  /\ endswith "Cells" "Cell" = false /\ endswith "ell" "Cell" = false
  /\ endswith "" "Cell" = false.
Proof. repeat split. Qed.

Example str_samples :
  str (JNum 0) = Some "0" /\ str (JNum (-12)) = Some "-12"
  /\ str (JNum 105) = Some "105" /\ str (JStr "s1") = Some "s1"
  /\ tune_url "None"
     = "https://opml.radiotime.com/Tune.ashx?&id=None&itemUrlScheme=secure&partnerId=RadioTime&version=7.10.2&formats=mp3%2Caac%2Cogg%2Cflash%2Chtml%2Chls&render=json".
Proof. repeat split. Qed.

(** A run over one entry without a container and one list of six items. *)
Example sample_run :
  script Sample.respond Sample.encodes "jazz"
    [Sample.station_item; Sample.show_item; Sample.ended_show_item;
     Sample.audiobook_item; Sample.no_seo_item; Sample.silent_item]
  = (Done tt,
     [Sent (Profiles "jazz");
      Printed (JStr "Radio One"); Printed (JStr "Station");
      Sent (Tune (JStr "s1")); Printed (JStr "B");
      Printed (JStr "Some Show"); Printed (JStr "Show");
      Sent (Contents (JStr "p1")); Sent (Tune (JStr "e1")); Printed (JStr "A");
      Printed (JStr "Ended Show"); Printed (JStr "Show");
      Sent (Contents (JStr "p2")); Sent (Tune JNull); Printed JNull;
      Printed (JStr "A Book");
      Printed (JStr "no seo info! skipping");
      Printed (JStr "Silent"); Sent (Tune (JStr "s3")); Printed JNull],
     [Sample.station_item; Sample.show_item; Sample.ended_show_item;
      Sample.audiobook_item; Sample.no_seo_item; Sample.silent_item]).
Proof. reflexivity. Qed.

(** A title with a lone surrogate: [print] raises at line 74 and the run
    ends there, before the station after it. *)
Example unwritable_title_run :
  script Sample.respond Sample.encodes "jazz"
    [Sample.no_seo_item; Faulty.unwritable_item (Some "Station"); Sample.station_item]
  = (Raise UnicodeEncodeError,
     [Sent (Profiles "jazz"); Printed (JStr "no seo info! skipping")],
     [Sample.no_seo_item; Faulty.unwritable_item (Some "Station");
      Sample.station_item]).
Proof. reflexivity. Qed.

(** C1 at the two responses of the specification and at an empty one. *)
Lemma get_stream_policy_witness :
  get_stream Sample.respond (JStr "s1") []
  = (Done (JStr "B"), [Sent (Tune (JStr "s1"))], [])
  /\ get_stream Sample.respond (JStr "e1") []
     = (Done (JStr "A"), [Sent (Tune (JStr "e1"))], [])
  /\ get_stream Sample.respond (JStr "s3") []
     = (Done JNull, [Sent (Tune (JStr "s3"))], []).
Proof.
  split; [|split].
  - exact (proj1 (get_stream_policy Sample.respond (JStr "s1")
             (JObj [("body", JArr Sample.aac_then_mp3)]) Sample.aac_then_mp3 [] []
             eq_refl eq_refl eq_refl)).
  - exact (proj1 (get_stream_policy Sample.respond (JStr "e1")
             (JObj [("body", JArr Sample.aac_only)]) Sample.aac_only [] []
             eq_refl eq_refl eq_refl)).
  - exact (proj1 (get_stream_policy Sample.respond (JStr "s3")
             (JObj [("body", JArr [])]) [] [] []
             eq_refl eq_refl eq_refl)).
Defined.

(** C2.  An item none of whose keys ends with Cell, followed by a station:
    line 63 raises AttributeError, nothing is printed, and the run ends
    there; the station after it is never reached. *)
Theorem item_without_cell_aborts_run :
  next_cell Sample.no_cell_item = inr JNull
  /\ script Sample.respond Sample.encodes "jazz" [Sample.no_cell_item; Sample.station_item]
     = (Raise AttributeError, [Sent (Profiles "jazz")],
        [Sample.no_cell_item; Sample.station_item]).
Proof. split; reflexivity. Qed.

(** C3 as stated fails: the Cell of the sample audiobook has ContentInfo
    Type Audiobook, and its title line is printed. *)
Lemma audiobook_title_is_printed :
  next_cell Sample.audiobook_item = inr (Sample.cell "a1" "A Book" (Some "Audiobook"))
  /\ field (field (Sample.cell "a1" "A Book" (Some "Audiobook")) "ContentInfo") "Type"
     = JStr "Audiobook"
  /\ printed (trace_of (item_body Sample.respond Sample.encodes Sample.audiobook_item []))
     = [JStr "A Book"]
  /\ printed (trace_of (item_body Sample.respond Sample.encodes Sample.audiobook_item [])) <> [].
Proof. repeat split; try reflexivity. discriminate. Qed.

Lemma audiobook_prints_title_only_witness :
  item_body Sample.respond Sample.encodes Sample.audiobook_item []
  = (Continue, [Printed (JStr "A Book")], [])
  /\ (forall rest,
       for_ (Sample.audiobook_item :: rest) (item_body Sample.respond Sample.encodes) []
       = after [Printed (JStr "A Book")]
           (for_ rest (item_body Sample.respond Sample.encodes) []))
  /\ item_body Sample.respond Sample.encodes
       (Faulty.unwritable_item (Some "Audiobook")) []
     = (Raise UnicodeEncodeError, [], []).
Proof.
  pose proof (audiobook_prints_title_only Sample.respond Sample.encodes
                Sample.audiobook_item
                (Sample.cell "a1" "A Book" (Some "Audiobook")) (JStr "A Book") []
                eq_refl eq_refl eq_refl eq_refl eq_refl) as [Hrun Hloop].
  split; [exact Hrun|]. split; [exact (Hloop eq_refl)|].
  exact (proj1 (audiobook_prints_title_only Sample.respond Sample.encodes
                  (Faulty.unwritable_item (Some "Audiobook"))
                  (Sample.cell "s1" Faulty.lone_surrogate (Some "Audiobook"))
                  (JStr Faulty.lone_surrogate) []
                  eq_refl eq_refl eq_refl eq_refl eq_refl)).
Defined.

(** C4 as stated fails: the stream response of the sample's silent item
    has no candidate, [get_stream] returns [None], and a line is printed
    after the request all the same; its text is [None]. *)
Lemma empty_candidates_line_is_None :
  Sample.respond (Tune (JStr "s3")) [] = (inr (JObj [("body", JArr [])]), [])
  /\ get_stream Sample.respond (JStr "s3") []
     = (Done JNull, [Sent (Tune (JStr "s3"))], [])
  /\ printed_after_tune (trace_of (item_body Sample.respond Sample.encodes Sample.silent_item []))
     = [JNull]
  /\ printed_after_tune (trace_of (item_body Sample.respond Sample.encodes Sample.silent_item []))
     <> []
  /\ str JNull = Some "None".
Proof. repeat split; try reflexivity. discriminate. Qed.

Lemma empty_candidates_print_None_witness :
  get_stream Sample.respond (JStr "s3") []
  = (Done JNull, [Sent (Tune (JStr "s3"))], [])
  /\ cell_block Sample.respond Sample.encodes (Sample.cell "s3" "Silent" None) (JStr "s3") []
     = (Done tt, [Printed (JStr "Silent"); Sent (Tune (JStr "s3")); Printed JNull], [])
  /\ str JNull = Some "None".
Proof.
  exact (empty_candidates_print_None Sample.respond Sample.encodes
           (Sample.cell "s3" "Silent" None) (JStr "s3") (JStr "s3")
           (JObj [("body", JArr [])]) [Printed (JStr "Silent")] [] [] []
           eq_refl eq_refl eq_refl).
Defined.

Lemma show_streams_latest_episode_witness :
  (forall i,
     In i (tune_ids (trace_of (item_body Sample.respond Sample.encodes
                                 Sample.show_item []))) ->
     outcome_of (get_pod_info Sample.respond (JStr "p1") []) = Done i)
  /\ item_body Sample.respond Sample.encodes Sample.show_item []
     = (Done tt,
        [Printed (JStr "Some Show"); Printed (JStr "Show");
         Sent (Contents (JStr "p1")); Sent (Tune (JStr "e1")); Printed (JStr "A")],
        [])
  /\ tune_ids (trace_of (item_body Sample.respond Sample.encodes Sample.show_item []))
     = [JStr "e1"].
Proof.
  pose proof (show_streams_latest_episode Sample.respond Sample.encodes
                Sample.show_item
                (Sample.cell "p1" "Some Show" (Some "Show")) (JStr "Some Show")
                (JStr "Show") []
                eq_refl eq_refl eq_refl eq_refl eq_refl eq_refl eq_refl)
    as [Hany Hrun].
  split; [exact Hany|].
  exact (Hrun (JStr "e1") [Sent (Contents (JStr "p1"))] [] eq_refl eq_refl eq_refl).
Defined.

(** C6 as stated fails: the first item of the sample listing has no
    Children group, the second has one, and [get_pod_info] returns the
    GuideId of the second item's first child instead of nothing. *)
Lemma get_pod_info_looks_past_first_item :
  Sample.respond (Contents (JStr "p1")) []
  = (inr (JObj [("Items", JArr Sample.late_children)]), [])
  /\ nth_error Sample.late_children 0 = Some (JObj [])
  /\ first_child (JObj []) = None
  /\ outcome_of (get_pod_info Sample.respond (JStr "p1") []) = Done (JStr "e1")
  /\ outcome_of (get_pod_info Sample.respond (JStr "p1") []) <> Done JNull.
Proof. repeat split; try reflexivity. discriminate. Qed.

Lemma get_pod_info_first_group_witness :
  get_pod_info Sample.respond (JStr "p1") []
  = (Done (JStr "e1"), [Sent (Contents (JStr "p1"))], [])
  /\ (forall x y, find has_children Sample.late_children = Some x ->
        first_child x = Some y ->
        latest_episode Sample.late_children = field y "GuideId")
  /\ (find has_children Sample.late_children = None ->
      latest_episode Sample.late_children = JNull).
Proof.
  exact (get_pod_info_first_group Sample.respond (JStr "p1")
           (JObj [("Items", JArr Sample.late_children)]) Sample.late_children [] []
           eq_refl eq_refl eq_refl eq_refl).
Defined.

Lemma no_seo_info_skips_item_witness :
  item_body Sample.respond Sample.encodes Sample.no_seo_item []
  = (Continue, [Printed (JStr "no seo info! skipping")], [])
  /\ forall rest, for_ (Sample.no_seo_item :: rest) (item_body Sample.respond Sample.encodes) []
                  = after [Printed (JStr "no seo info! skipping")]
                      (for_ rest (item_body Sample.respond Sample.encodes) []).
Proof.
  exact (no_seo_info_skips_item Sample.respond Sample.encodes Sample.no_seo_item
           (JObj [("GuideId", JStr "s2")]) []
           eq_refl eq_refl eq_refl eq_refl).
Defined.

Lemma entry_without_container_prints_nothing_witness :
  entry_body Sample.respond Sample.encodes Sample.bare_entry [] = (Continue, [], [])
  /\ forall rest, for_ (Sample.bare_entry :: rest) (entry_body Sample.respond Sample.encodes) []
                  = for_ rest (entry_body Sample.respond Sample.encodes) [].
Proof.
  exact (entry_without_container_prints_nothing Sample.respond Sample.encodes Sample.bare_entry []
           eq_refl eq_refl eq_refl).
Defined.

Lemma missing_episode_streams_None_witness :
  get_pod_info Sample.respond (JStr "p2") []
  = (Done JNull, [Sent (Contents (JStr "p2"))], [])
  /\ item_body Sample.respond Sample.encodes Sample.ended_show_item []
     = (Done tt,
        [Printed (JStr "Ended Show"); Printed (JStr "Show");
         Sent (Contents (JStr "p2")); Sent (Tune JNull); Printed JNull],
        [])
  /\ tune_ids (trace_of (item_body Sample.respond Sample.encodes
                           Sample.ended_show_item [])) = [JNull]
  /\ option_map tune_url (str JNull) = Some (tune_url "None").
Proof.
  pose proof (missing_episode_streams_None Sample.respond Sample.encodes
                Sample.ended_show_item
                (Sample.cell "p2" "Ended Show" (Some "Show")) (JStr "Ended Show")
                (JStr "Show") (JObj [("Items", JArr Sample.no_children)])
                Sample.no_children [] []
                eq_refl eq_refl eq_refl eq_refl eq_refl eq_refl eq_refl
                eq_refl eq_refl eq_refl eq_refl)
    as (Hpod & Hany & Hrun & Hurl).
  destruct (Hrun eq_refl eq_refl) as [Hitem Hids].
  split; [exact Hpod|]. split; [exact Hitem|]. split; [exact Hids | exact Hurl].
Defined.

(** ** Further properties of the two functions *)

Set Warnings "-notation-for-abbreviation".

Section Functions.

Context {World : Type}.
Variable respond : request -> World -> result value * World.

Local Notation stream_round_of :=
  (fun stream : value =>
     bind (lift (getitem stream "media_type")) (fun media_type =>
       if eq_str media_type "mp3" then
         bind (bind (lift (getitem stream "url")) (fun url => return_ url))
              (fun _ => break_)
       else skip)).

Local Notation pod_round_of :=
  (fun x : value =>
     bind (lift (method_get x "Children")) (fun list =>
       if truthy list then
         for_in list (fun y =>
           bind (lift (getitem y "GuideId")) (fun guide_id => return_ guide_id))
       else skip)).

Lemma requests_app (t1 t2 : list event) :
  requests (t1 ++ t2) = requests t1 ++ requests t2.
Proof.
  induction t1 as [|[r|v] t1 IH]; simpl; [reflexivity | f_equal; exact IH | exact IH].
Qed.

Lemma call_outcome (m : prog World unit) (w : World) :
  call_result (outcome_of (call m w)) = true.
Proof.
  unfold call. destruct (m w) as [[o t] w1]. destruct o; reflexivity.
Qed.

Lemma bind_stop {A B : Type} (m : prog World A) (f : A -> prog World B)
    (w w1 : World) (e : exn) (t : list event) :
  m w = (Raise e, t, w1) -> bind m f w = (Raise e, t, w1).
Proof. unfold bind. intros ->. reflexivity. Qed.

(** A call that starts with a request: what the answer decides. *)
Lemma call_request (r : request) (k : value -> prog World unit) (w : World) :
  call (bind (request_json respond r) k) w
  = match respond r w with
    | (inl e, w1) => (Raise e, [Sent r], w1)
    | (inr data, w1) => after [Sent r] (call (k data) w1)
    end.
Proof.
  unfold call, bind, request_json.
  destruct (respond r w) as [[e|data] w1]; [reflexivity|].
  destruct (k data w1) as [[o t] w2]. reflexivity.
Qed.

(** A statement that reads [data[k]] and loops over it fails as the
    reading fails. *)
Lemma read_loop_fails {B : Type} (data : value) (k : string) (e : exn)
    (body : value -> prog World unit) (rest : unit -> prog World B) (w : World) :
  enumerated (inr data) k = inl e ->
  bind (bind (lift (getitem data k)) (fun b => for_in b body)) rest w
  = (Raise e, [], w).
Proof.
  unfold enumerated. intros Hen.
  destruct (getitem data k) as [e'|b]; [injection Hen as ->; reflexivity|].
  rewrite bind_assoc, bind_lift_inr. unfold for_in. rewrite Hen. reflexivity.
Qed.

Lemma read_loop_runs {B : Type} (data : value) (k : string) (xs : list value)
    (body : value -> prog World unit) (rest : unit -> prog World B) (w : World) :
  enumerated (inr data) k = inr xs ->
  bind (bind (lift (getitem data k)) (fun b => for_in b body)) rest w
  = bind (for_ xs body) rest w.
Proof.
  unfold enumerated. intros Hen.
  destruct (getitem data k) as [e'|b]; [discriminate|].
  rewrite bind_assoc, bind_lift_inr. unfold for_in.
  rewrite bind_assoc, Hen, bind_lift_inr. reflexivity.
Qed.

(** *** get_stream *)

Lemma stream_round_other (c : value) (w : World) :
  other_type c = true -> stream_round_of c w = (Done tt, [], w).
Proof.
  unfold other_type. destruct (getitem c "media_type") as [e|mt]; [discriminate|].
  intros Hmt. rewrite bind_lift_inr.
  destruct (eq_str mt "mp3"); [discriminate | reflexivity].
Qed.

(** Candidates of another type are passed over. *)
Lemma stream_loop_skip (pre rest : list value) (w : World) :
  forallb other_type pre = true ->
  for_ (pre ++ rest) stream_round_of w = for_ rest stream_round_of w.
Proof.
  induction pre as [|c pre IH]; intros Hpre; [reflexivity|].
  simpl in Hpre. apply andb_prop in Hpre as [Hc Hpre].
  rewrite <- app_comm_cons.
  rewrite (for_next _ c (pre ++ rest) w w [] (Done tt) (stream_round_other c w Hc));
    [| now left].
  rewrite after_nil. exact (IH Hpre).
Qed.

Lemma get_stream_exit (id data : value) (cands : list value) (w w1 : World)
    (o : outcome unit) :
  respond (Tune id) w = (inr data, w1) ->
  enumerated (inr data) "body" = inr cands ->
  for_ cands stream_round_of w1 = (o, [], w1) ->
  (forall u : unit, o <> Done u) ->
  get_stream respond id w
  = (match o with
     | Return v => Done v
     | Raise e => Raise e
     | _ => Raise SyntaxError
     end, [Sent (Tune id)], w1).
Proof.
  intros Hresp Hen Hloop Ho. unfold get_stream.
  rewrite call_request, Hresp. unfold call.
  rewrite (read_loop_runs _ _ _ _ _ _ Hen). unfold bind at 1. rewrite Hloop.
  destruct o as [[]| | | |]; try reflexivity. exfalso. exact (Ho tt eq_refl).
Qed.

Lemma iter_nil_len (b : value) : iter b = inr [] -> len b = inr 0.
Proof.
  destruct b as [| | |s|l|o]; simpl; try discriminate.
  - destruct s; [reflexivity | discriminate].
  - intros [= ->]. reflexivity.
  - destruct o; [reflexivity | discriminate].
Qed.

Lemma iter_cons_truthy (b y : value) (ys : list value) :
  iter b = inr (y :: ys) -> truthy b = true.
Proof.
  destruct b as [| | |s|l|o]; simpl; try discriminate.
  - destruct s; [discriminate | reflexivity].
  - intros [= ->]. reflexivity.
  - destruct o; [discriminate | reflexivity].
Qed.

(** X1.  Whatever the answer to its request, [get_stream] sends that one
    request, prints nothing, and ends with a value or an exception. *)
Theorem get_stream_one_request (id : value) (w : World) :
  trace_of (get_stream respond id w) = [Sent (Tune id)]
  /\ call_result (outcome_of (get_stream respond id w)) = true.
Proof.
  split; [apply get_stream_trace | apply call_outcome].
Qed.

(** X2.  Whatever the answer to its request, [get_pod_info] sends that one
    request, prints nothing, and ends with a value or an exception. *)
Theorem get_pod_info_one_request (id : value) (w : World) :
  trace_of (get_pod_info respond id w) = [Sent (Contents id)]
  /\ call_result (outcome_of (get_pod_info respond id w)) = true.
Proof.
  split; [apply get_pod_info_trace | apply call_outcome].
Qed.

(** X3.  The first mp3 candidate decides: when the candidates before it
    have another media type, [get_stream] returns its URL, or raises the
    exception of reading it; the URLs of the candidates before it and all
    of the candidates after it are never read. *)
Theorem get_stream_first_mp3_decides (id data c : value) (pre post : list value)
    (w w1 : World) :
  respond (Tune id) w = (inr data, w1) ->
  enumerated (inr data) "body" = inr (pre ++ c :: post) ->
  forallb other_type pre = true ->
  getitem c "media_type" = inr (JStr "mp3") ->
  get_stream respond id w
  = (match getitem c "url" with
     | inr url => Done url
     | inl e => Raise e
     end, [Sent (Tune id)], w1).
Proof.
  intros Hresp Hen Hpre Hmp3.
  assert (Hround : stream_round_of c w1
                   = (match getitem c "url" with
                      | inr url => Return url
                      | inl e => Raise e
                      end, [], w1)).
  { rewrite Hmp3, bind_lift_inr. cbn [eq_str String.eqb Ascii.eqb Bool.eqb].
    destruct (getitem c "url") as [e|u]; reflexivity. }
  destruct (getitem c "url") as [e|u].
  - rewrite (get_stream_exit id data _ w w1 (Raise e) Hresp Hen); [reflexivity | | discriminate].
    rewrite stream_loop_skip by exact Hpre. apply for_raise. exact Hround.
  - rewrite (get_stream_exit id data _ w w1 (Return u) Hresp Hen); [reflexivity | | discriminate].
    rewrite stream_loop_skip by exact Hpre. apply for_return. exact Hround.
Qed.

(** X4.  Without an mp3 candidate the first candidate decides:
    [get_stream] returns its URL, or raises the exception of reading it;
    the other candidates need no URL. *)
Theorem get_stream_fallback_first_url (id data c : value) (rest : list value)
    (w w1 : World) :
  respond (Tune id) w = (inr data, w1) ->
  getitem data "body" = inr (JArr (c :: rest)) ->
  forallb other_type (c :: rest) = true ->
  get_stream respond id w
  = (match getitem c "url" with
     | inr url => Done url
     | inl e => Raise e
     end, [Sent (Tune id)], w1).
Proof.
  intros Hresp Hbody Hother. unfold get_stream.
  rewrite call_request, Hresp. unfold call.
  rewrite (read_loop_runs data "body" (c :: rest));
    [| unfold enumerated; rewrite Hbody; reflexivity].
  unfold bind at 1.
  rewrite <- (app_nil_r (c :: rest)) at 1.
  rewrite (stream_loop_skip (c :: rest) [] w1 Hother), for_nil.
  rewrite Hbody, bind_lift_inr. cbn [len List.length].
  rewrite bind_lift_inr. cbn [Nat.ltb Nat.leb].
  rewrite bind_lift_inr. cbn [getindex nth_error]. rewrite bind_lift_inr.
  destruct (getitem c "url") as [e|u]; reflexivity.
Qed.

(** X5.  A candidate whose media type cannot be read, met before any mp3
    candidate, ends [get_stream] with the exception of the reading (a
    KeyError for a record without the key, a TypeError for a value that
    is no record): the candidate is not passed over. *)
Theorem get_stream_unreadable_candidate (id data c : value) (pre post : list value)
    (e : exn) (w w1 : World) :
  respond (Tune id) w = (inr data, w1) ->
  enumerated (inr data) "body" = inr (pre ++ c :: post) ->
  forallb other_type pre = true ->
  getitem c "media_type" = inl e ->
  get_stream respond id w = (Raise e, [Sent (Tune id)], w1).
Proof.
  intros Hresp Hen Hpre Hbad.
  rewrite (get_stream_exit id data _ w w1 (Raise e) Hresp Hen); [reflexivity | | discriminate].
  rewrite stream_loop_skip by exact Hpre. apply for_raise.
  rewrite Hbad. reflexivity.
Qed.

(** X6.  When the request fails, or the answer has no body that can be
    read and iterated, [get_stream] ends with that exception after its
    one request. *)
Theorem get_stream_unreadable_body (id : value) (res : result value) (e : exn)
    (w w1 : World) :
  respond (Tune id) w = (res, w1) ->
  enumerated res "body" = inl e ->
  get_stream respond id w = (Raise e, [Sent (Tune id)], w1).
Proof.
  intros Hresp Hen. unfold get_stream. rewrite call_request, Hresp.
  destruct res as [e'|data].
  - injection Hen as ->. reflexivity.
  - unfold call. rewrite (read_loop_fails _ _ _ _ _ _ Hen). reflexivity.
Qed.

(** X7.  A body that enumerates nothing (an empty list, an empty string or
    an empty dict) gives [None]. *)
Theorem get_stream_nothing_enumerated (id data b : value) (w w1 : World) :
  respond (Tune id) w = (inr data, w1) ->
  getitem data "body" = inr b ->
  iter b = inr [] ->
  get_stream respond id w = (Done JNull, [Sent (Tune id)], w1).
Proof.
  intros Hresp Hbody Hiter. unfold get_stream.
  rewrite call_request, Hresp. unfold call.
  rewrite (read_loop_runs data "body" []);
    [| unfold enumerated; rewrite Hbody; exact Hiter].
  unfold bind at 1. rewrite for_nil.
  rewrite Hbody, bind_lift_inr, (iter_nil_len b Hiter), bind_lift_inr.
  reflexivity.
Qed.

(** *** get_pod_info *)

Lemma pod_round_childless (x : value) (w : World) :
  childless x = true -> pod_round_of x w = (Done tt, [], w).
Proof.
  unfold childless, has_children. intros H. apply andb_prop in H as [Hd Hc].
  rewrite (is_dict_method_get x "Children" Hd), bind_lift_inr.
  destruct (truthy (field x "Children")); [discriminate | reflexivity].
Qed.

(** Items without a Children group are passed over. *)
Lemma pod_loop_skip (pre rest : list value) (w : World) :
  forallb childless pre = true ->
  for_ (pre ++ rest) pod_round_of w = for_ rest pod_round_of w.
Proof.
  induction pre as [|x pre IH]; intros Hpre; [reflexivity|].
  simpl in Hpre. apply andb_prop in Hpre as [Hx Hpre].
  rewrite <- app_comm_cons.
  rewrite (for_next _ x (pre ++ rest) w w [] (Done tt) (pod_round_childless x w Hx));
    [| now left].
  rewrite after_nil. exact (IH Hpre).
Qed.

Lemma get_pod_info_exit (id pod : value) (items : list value) (w w1 : World)
    (o : outcome unit) :
  respond (Contents id) w = (inr pod, w1) ->
  enumerated (inr pod) "Items" = inr items ->
  for_ items pod_round_of w1 = (o, [], w1) ->
  get_pod_info respond id w
  = (match o with
     | Done _ => Done JNull
     | Return v => Done v
     | Raise e => Raise e
     | _ => Raise SyntaxError
     end, [Sent (Contents id)], w1).
Proof.
  intros Hresp Hen Hloop. unfold get_pod_info.
  rewrite call_request, Hresp. unfold call.
  unfold enumerated in Hen.
  destruct (getitem pod "Items") as [e|b]; [discriminate|].
  rewrite bind_lift_inr. unfold for_in at 1. rewrite Hen, bind_lift_inr, Hloop.
  destruct o; reflexivity.
Qed.

(** X8.  The first child of the first Children group decides: when the
    items before the group are records without one, [get_pod_info]
    returns the GuideId of that child, or raises the exception of reading
    it; the other children of the group and the items after it are never
    read. *)
Theorem get_pod_info_first_child_decides (id pod x y : value)
    (pre post ys : list value) (w w1 : World) :
  respond (Contents id) w = (inr pod, w1) ->
  enumerated (inr pod) "Items" = inr (pre ++ x :: post) ->
  forallb childless pre = true ->
  is_dict x = true ->
  iter (field x "Children") = inr (y :: ys) ->
  get_pod_info respond id w
  = (match getitem y "GuideId" with
     | inr guide_id => Done guide_id
     | inl e => Raise e
     end, [Sent (Contents id)], w1).
Proof.
  intros Hresp Hen Hpre Hx Hiter.
  assert (Hround : pod_round_of x w1
                   = (match getitem y "GuideId" with
                      | inr guide_id => Return guide_id
                      | inl e => Raise e
                      end, [], w1)).
  { rewrite (is_dict_method_get x "Children" Hx), bind_lift_inr.
    rewrite (iter_cons_truthy _ _ _ Hiter). unfold for_in.
    rewrite Hiter, bind_lift_inr.
    destruct (getitem y "GuideId") as [e|g] eqn:Eg.
    - apply for_raise. cbv beta. rewrite Eg. reflexivity.
    - apply for_return. cbv beta. rewrite Eg, bind_lift_inr. reflexivity. }
  destruct (getitem y "GuideId") as [e|g].
  - rewrite (get_pod_info_exit id pod _ w w1 (Raise e) Hresp Hen); [reflexivity|].
    rewrite pod_loop_skip by exact Hpre. apply for_raise. exact Hround.
  - rewrite (get_pod_info_exit id pod _ w w1 (Return g) Hresp Hen); [reflexivity|].
    rewrite pod_loop_skip by exact Hpre. apply for_return. exact Hround.
Qed.

(** X9.  When the request fails, or the answer has no Items that can be
    read and iterated, [get_pod_info] ends with that exception after its
    one request. *)
Theorem get_pod_info_unreadable_listing (id : value) (res : result value) (e : exn)
    (w w1 : World) :
  respond (Contents id) w = (res, w1) ->
  enumerated res "Items" = inl e ->
  get_pod_info respond id w = (Raise e, [Sent (Contents id)], w1).
Proof.
  intros Hresp Hen. unfold get_pod_info. rewrite call_request, Hresp.
  destruct res as [e'|pod].
  - injection Hen as ->. reflexivity.
  - unfold call, enumerated in *.
    destruct (getitem pod "Items") as [e'|b].
    + injection Hen as ->. reflexivity.
    + rewrite bind_lift_inr. unfold for_in at 1. rewrite Hen. reflexivity.
Qed.

(** X10.  An item that is no record, or whose Children value is truthy
    but cannot be iterated, met before any Children group, ends
    [get_pod_info] with an exception (AttributeError for the first,
    the exception of the iteration for the second). *)
Theorem get_pod_info_unreadable_item (id pod x : value) (pre post : list value)
    (e : exn) (w w1 : World) :
  respond (Contents id) w = (inr pod, w1) ->
  enumerated (inr pod) "Items" = inr (pre ++ x :: post) ->
  forallb childless pre = true ->
  (is_dict x = false /\ e = AttributeError)
  \/ (is_dict x = true /\ truthy (field x "Children") = true
      /\ iter (field x "Children") = inl e) ->
  get_pod_info respond id w = (Raise e, [Sent (Contents id)], w1).
Proof.
  intros Hresp Hen Hpre Hx.
  rewrite (get_pod_info_exit id pod _ w w1 (Raise e) Hresp Hen); [reflexivity|].
  rewrite pod_loop_skip by exact Hpre. apply for_raise.
  destruct Hx as [[Hx ->] | (Hx & Htruthy & Hiter)].
  - destruct x; try reflexivity. discriminate.
  - rewrite (is_dict_method_get x "Children" Hx), bind_lift_inr, Htruthy.
    unfold for_in. rewrite Hiter. reflexivity.
Qed.

End Functions.

(** ** Further properties of the traversal *)

Section Traversal.

Context {World : Type}.
Variable respond : request -> World -> result value * World.
Variable encodes : value -> bool.

(** *** One item *)

Lemma cell_head_start (cell id title : value) (w : World) :
  is_dict cell = true ->
  getitem (field cell "SEOInfo") "Title" = inr title ->
  cell_head respond encodes cell id w
  = if writable encodes title then
      after [Printed title]
        ((if truthy (field cell "ContentInfo") then
            bind (lift (getitem (field cell "ContentInfo") "Type")) (fun ty =>
            bind (if eq_str ty "Audiobook" then continue_ else skip) (fun _ =>
            bind (bind (lift (getitem (field cell "ContentInfo") "Type"))
                    (fun ty => print encodes ty)) (fun _ =>
            bind (lift (getitem (field cell "ContentInfo") "Type")) (fun ty =>
            if negb (eq_str ty "Station") then get_pod_info respond id else ret id))))
          else ret id) w)
    else (Raise UnicodeEncodeError, [], w).
Proof.
  intros Hdict Htitle. unfold cell_head.
  rewrite (is_dict_method_get cell "ContentInfo" Hdict), bind_lift_inr.
  rewrite (is_dict_method_get cell "SEOInfo" Hdict), bind_lift_inr.
  rewrite (getitem_truthy _ _ _ Htitle). cbn [negb]. rewrite bind_skip.
  rewrite bind_assoc, Htitle, bind_lift_inr.
  destruct (writable encodes title) eqn:Hw.
  - rewrite (bind_print _ _ _ _ Hw). reflexivity.
  - apply bind_print_fails. exact Hw.
Qed.

Lemma cell_head_station (cell id title : value) (w : World) :
  is_dict cell = true ->
  getitem (field cell "SEOInfo") "Title" = inr title ->
  getitem (field cell "ContentInfo") "Type" = inr (JStr "Station") ->
  cell_head respond encodes cell id w
  = if writable encodes title then
      (Done id, [Printed title; Printed (JStr "Station")], w)
    else (Raise UnicodeEncodeError, [], w).
Proof.
  intros Hdict Htitle Hty.
  rewrite (cell_head_start cell id title w Hdict Htitle).
  rewrite (getitem_truthy _ _ _ Hty), Hty, bind_lift_inr.
  reflexivity.
Qed.

Lemma cell_head_untyped (cell id title : value) (w : World) :
  is_dict cell = true ->
  getitem (field cell "SEOInfo") "Title" = inr title ->
  truthy (field cell "ContentInfo") = false ->
  cell_head respond encodes cell id w
  = if writable encodes title then (Done id, [Printed title], w)
    else (Raise UnicodeEncodeError, [], w).
Proof.
  intros Hdict Htitle Hci.
  rewrite (cell_head_start cell id title w Hdict Htitle), Hci. reflexivity.
Qed.

(** The requests of [print(get_stream(id))]. *)
Lemma print_stream_requests (id : value) (w : World) :
  requests (trace_of (bind (get_stream respond id) (print encodes) w)) = [Tune id]
  /\ stays_in_loop (outcome_of (bind (get_stream respond id) (print encodes) w)) = true.
Proof.
  pose proof (get_stream_trace respond id w) as Htr.
  pose proof (call_outcome (World:=World)) as Hcall.
  unfold bind. unfold get_stream in *.
  match goal with |- context [call ?m w] => specialize (Hcall m w); destruct (call m w) as [[o t] w1] end.
  unfold trace_of, outcome_of in *. simpl in Htr, Hcall. subst t.
  destruct o as [u| | | |e]; try discriminate; [|split; reflexivity].
  unfold print. destruct (writable encodes u); split; reflexivity.
Qed.

(** X11.  A station is streamed under its own identifier: when [print]
    can write the title, the item prints the title and the type and runs
    [print(get_stream(...))] on the GuideId of the Cell, and its one
    request is that stream request; it sends no contents request.  When
    [print] cannot write the title, the item raises UnicodeEncodeError
    with nothing printed and nothing sent. *)
Theorem station_streams_own_id (ite cell title : value) (w : World) :
  next_cell ite = inr cell ->
  is_dict cell = true ->
  truthy (field cell "GuideId") = true ->
  getitem (field cell "SEOInfo") "Title" = inr title ->
  getitem (field cell "ContentInfo") "Type" = inr (JStr "Station") ->
  item_body respond encodes ite w
  = (if writable encodes title then
       after [Printed title; Printed (JStr "Station")]
         (bind (get_stream respond (field cell "GuideId")) (print encodes) w)
     else (Raise UnicodeEncodeError, [], w))
  /\ requests (trace_of (item_body respond encodes ite w))
     = (if writable encodes title then [Tune (field cell "GuideId")] else []).
Proof.
  intros Hcell Hdict Hid Htitle Hty.
  assert (Hrun : item_body respond encodes ite w
                 = (if writable encodes title then
                      after [Printed title; Printed (JStr "Station")]
                        (bind (get_stream respond (field cell "GuideId"))
                           (print encodes) w)
                    else (Raise UnicodeEncodeError, [], w))).
  { rewrite (item_body_block respond encodes ite cell Hcell Hdict Hid).
    unfold cell_block.
    pose proof (cell_head_station cell (field cell "GuideId") title w
                  Hdict Htitle Hty) as Hhead.
    destruct (writable encodes title).
    - rewrite (bind_run _ _ _ _ _ _ Hhead). reflexivity.
    - rewrite (bind_stop _ _ _ _ _ _ Hhead). reflexivity. }
  split; [exact Hrun|]. rewrite Hrun.
  destruct (writable encodes title); [|reflexivity].
  destruct (print_stream_requests (field cell "GuideId") w) as [Hreq _].
  destruct (bind (get_stream respond (field cell "GuideId")) (print encodes) w) as [[o t] w1].
  exact Hreq.
Qed.

(** X12.  A Cell without ContentInfo (absent, or falsy) is streamed under
    its own identifier: when [print] can write the title, the item prints
    the title, no type line, and runs [print(get_stream(...))] on the
    GuideId of the Cell, and its one request is that stream request; it
    sends no contents request.  When [print] cannot write the title, the
    item raises UnicodeEncodeError with nothing printed and nothing
    sent. *)
Theorem untyped_cell_streams_own_id (ite cell title : value) (w : World) :
  next_cell ite = inr cell ->
  is_dict cell = true ->
  truthy (field cell "GuideId") = true ->
  getitem (field cell "SEOInfo") "Title" = inr title ->
  truthy (field cell "ContentInfo") = false ->
  item_body respond encodes ite w
  = (if writable encodes title then
       after [Printed title]
         (bind (get_stream respond (field cell "GuideId")) (print encodes) w)
     else (Raise UnicodeEncodeError, [], w))
  /\ requests (trace_of (item_body respond encodes ite w))
     = (if writable encodes title then [Tune (field cell "GuideId")] else []).
Proof.
  intros Hcell Hdict Hid Htitle Hci.
  assert (Hrun : item_body respond encodes ite w
                 = (if writable encodes title then
                      after [Printed title]
                        (bind (get_stream respond (field cell "GuideId"))
                           (print encodes) w)
                    else (Raise UnicodeEncodeError, [], w))).
  { rewrite (item_body_block respond encodes ite cell Hcell Hdict Hid).
    unfold cell_block.
    pose proof (cell_head_untyped cell (field cell "GuideId") title w
                  Hdict Htitle Hci) as Hhead.
    destruct (writable encodes title).
    - rewrite (bind_run _ _ _ _ _ _ Hhead). reflexivity.
    - rewrite (bind_stop _ _ _ _ _ _ Hhead). reflexivity. }
  split; [exact Hrun|]. rewrite Hrun.
  destruct (writable encodes title); [|reflexivity].
  destruct (print_stream_requests (field cell "GuideId") w) as [Hreq _].
  destruct (bind (get_stream respond (field cell "GuideId")) (print encodes) w) as [[o t] w1].
  exact Hreq.
Qed.

(** X13.  A Cell without identifier (GuideId absent, or falsy) is skipped
    in silence: the item emits nothing and the loop goes on with the next
    item. *)
Theorem cell_without_id_is_skipped (ite cell : value) (w : World) :
  next_cell ite = inr cell ->
  is_dict cell = true ->
  truthy (field cell "GuideId") = false ->
  item_body respond encodes ite w = (Continue, [], w)
  /\ forall rest, for_ (ite :: rest) (item_body respond encodes) w
                  = for_ rest (item_body respond encodes) w.
Proof.
  intros Hcell Hdict Hid.
  assert (Hrun : item_body respond encodes ite w = (Continue, [], w)).
  { unfold item_body.
    rewrite Hcell, bind_lift_inr, (is_dict_method_get cell "GuideId" Hdict), bind_lift_inr.
    rewrite Hid. reflexivity. }
  split; [exact Hrun|].
  intros rest. rewrite (for_next _ _ rest _ _ _ _ Hrun); [apply after_nil | now right].
Qed.

(** X14.  A ContentInfo whose Type cannot be read ends the item with the
    exception of the reading, after the title is printed; when [print]
    cannot write the title, the item ends before that, with
    UnicodeEncodeError and nothing printed. *)
Theorem unreadable_type_raises (ite cell title : value) (e : exn) (w : World) :
  next_cell ite = inr cell ->
  is_dict cell = true ->
  truthy (field cell "GuideId") = true ->
  getitem (field cell "SEOInfo") "Title" = inr title ->
  truthy (field cell "ContentInfo") = true ->
  getitem (field cell "ContentInfo") "Type" = inl e ->
  item_body respond encodes ite w
  = if writable encodes title then (Raise e, [Printed title], w)
    else (Raise UnicodeEncodeError, [], w).
Proof.
  intros Hcell Hdict Hid Htitle Hci Hty.
  rewrite (item_body_block respond encodes ite cell Hcell Hdict Hid).
  unfold cell_block.
  pose proof (cell_head_start cell (field cell "GuideId") title w Hdict Htitle)
    as Hhead.
  rewrite Hci, Hty in Hhead.
  destruct (writable encodes title);
    rewrite (bind_stop _ _ _ _ _ _ Hhead); reflexivity.
Qed.

(** X15.  A truthy SEOInfo whose Title cannot be read ends the item with
    the exception of the reading, before anything is printed. *)
Theorem unreadable_title_raises (ite cell : value) (e : exn) (w : World) :
  next_cell ite = inr cell ->
  is_dict cell = true ->
  truthy (field cell "GuideId") = true ->
  truthy (field cell "SEOInfo") = true ->
  getitem (field cell "SEOInfo") "Title" = inl e ->
  item_body respond encodes ite w = (Raise e, [], w).
Proof.
  intros Hcell Hdict Hid Hseo Htitle.
  rewrite (item_body_block respond encodes ite cell Hcell Hdict Hid). unfold cell_block.
  apply bind_stop. unfold cell_head.
  rewrite (is_dict_method_get cell "ContentInfo" Hdict), bind_lift_inr.
  rewrite (is_dict_method_get cell "SEOInfo" Hdict), bind_lift_inr.
  rewrite Hseo. cbn [negb]. rewrite bind_skip, bind_assoc, Htitle. reflexivity.
Qed.

(** X27.  A title that [print] cannot write ends the item at line 74
    with UnicodeEncodeError, whatever the ContentInfo: nothing is printed
    and no request is sent. *)
Theorem unwritable_title_raises (ite cell title : value) (w : World) :
  next_cell ite = inr cell ->
  is_dict cell = true ->
  truthy (field cell "GuideId") = true ->
  getitem (field cell "SEOInfo") "Title" = inr title ->
  writable encodes title = false ->
  item_body respond encodes ite w = (Raise UnicodeEncodeError, [], w).
Proof.
  intros Hcell Hdict Hid Htitle Hw.
  rewrite (item_body_block respond encodes ite cell Hcell Hdict Hid).
  unfold cell_block. apply bind_stop.
  rewrite (cell_head_start cell _ title w Hdict Htitle), Hw. reflexivity.
Qed.

(** X16.  A Cell value that is no record (a string, a list, a number, or
    the [None] that stands for a missing Cell key) ends the item with
    AttributeError before anything is printed; so does an item that is no
    record itself. *)
Theorem unreadable_cell_raises (ite : value) (w : World) :
  match next_cell ite with
  | inr cell => is_dict cell = false
  | inl _ => True
  end ->
  item_body respond encodes ite w = (Raise AttributeError, [], w).
Proof.
  unfold item_body. destruct (next_cell ite) as [e|cell] eqn:Ecell.
  - intros _. unfold next_cell in Ecell.
    destruct ite; simpl in Ecell; try discriminate; injection Ecell as <-; reflexivity.
  - intros Hcell. rewrite bind_lift_inr.
    destruct cell; try discriminate; reflexivity.
Qed.

(** X17.  Only three fields of the Cell matter: two items whose Cells are
    records with the same GuideId, SEOInfo and ContentInfo run the same,
    whatever the name of the Cell key and the other fields. *)
Theorem cell_fields_decide (ite ite' cell cell' : value) (w : World) :
  next_cell ite = inr cell ->
  next_cell ite' = inr cell' ->
  is_dict cell = true ->
  is_dict cell' = true ->
  field cell "GuideId" = field cell' "GuideId" ->
  field cell "SEOInfo" = field cell' "SEOInfo" ->
  field cell "ContentInfo" = field cell' "ContentInfo" ->
  item_body respond encodes ite w = item_body respond encodes ite' w.
Proof.
  intros Hcell Hcell' Hdict Hdict' Hid Hseo Hci.
  unfold item_body. rewrite Hcell, Hcell', !bind_lift_inr.
  unfold cell_block, cell_head.
  rewrite !(is_dict_method_get cell _ Hdict), !(is_dict_method_get cell' _ Hdict').
  rewrite Hid, Hseo, Hci. reflexivity.
Qed.

Ltac ends_in_place :=
  left; do 2 eexists; split; [reflexivity | split; [reflexivity | eauto]].

(** Where [cell_head] ends: in place, with no request sent, or in
    [get_pod_info]. *)
Lemma cell_head_cases (cell id : value) (w : World) :
  (exists o t, cell_head respond encodes cell id w = (o, t, w) /\ requests t = []
               /\ (o = Done id \/ o = Continue \/ exists e, o = Raise e))
  \/ (exists t0, requests t0 = []
                 /\ cell_head respond encodes cell id w
                    = after t0 (get_pod_info respond id w)).
Proof.
  unfold cell_head.
  destruct (method_get cell "ContentInfo") as [e|ci];
    [ends_in_place |].
  rewrite bind_lift_inr.
  destruct (method_get cell "SEOInfo") as [e|seo];
    [ends_in_place |].
  rewrite bind_lift_inr.
  destruct (truthy seo); cbn [negb];
    [| ends_in_place].
  rewrite bind_skip, bind_assoc.
  destruct (getitem seo "Title") as [e|title];
    [ends_in_place |].
  rewrite bind_lift_inr.
  destruct (writable encodes title) eqn:Hw;
    [rewrite (bind_print _ _ _ _ Hw)
    | rewrite (bind_print_fails _ _ _ _ Hw); ends_in_place].
  destruct (truthy ci);
    [| ends_in_place].
  destruct (getitem ci "Type") as [e|ty];
    [ends_in_place |].
  rewrite bind_lift_inr.
  destruct (eq_str ty "Audiobook");
    [ends_in_place |].
  rewrite bind_skip, bind_assoc, bind_lift_inr.
  destruct (writable encodes ty) eqn:Hwty;
    [rewrite (bind_print _ _ _ _ Hwty)
    | rewrite (bind_print_fails _ _ _ _ Hwty); ends_in_place].
  rewrite bind_lift_inr.
  destruct (eq_str ty "Station"); cbn [negb];
    [ends_in_place |].
  right. exists [Printed title; Printed ty]. split; [reflexivity|].
  rewrite after_after. reflexivity.
Qed.

Lemma cell_block_shape (cell id : value) (w : World) :
  item_requests (requests (trace_of (cell_block respond encodes cell id w))) = true
  /\ stays_in_loop (outcome_of (cell_block respond encodes cell id w)) = true.
Proof.
  unfold cell_block.
  destruct (cell_head_cases cell id w) as [(o & t & Hhead & Hreq & Ho) | (t0 & Hreq & Hhead)].
  - destruct Ho as [-> | [-> | [e ->]]].
    + rewrite (bind_run _ _ _ _ _ _ Hhead).
      destruct (print_stream_requests id w) as [Hrs Hout].
      destruct (bind (get_stream respond id) _ w) as [[o2 t2] w2].
      unfold trace_of, outcome_of in *. simpl in *.
      rewrite requests_app, Hreq, Hrs. split; [reflexivity | exact Hout].
    + unfold bind. rewrite Hhead. unfold trace_of, outcome_of. simpl.
      rewrite Hreq. split; reflexivity.
    + unfold bind. rewrite Hhead. unfold trace_of, outcome_of. simpl.
      rewrite Hreq. split; reflexivity.
  - pose proof (get_pod_info_trace respond id w) as Htr.
    assert (Hcall : call_result (outcome_of (get_pod_info respond id w)) = true)
      by apply call_outcome.
    remember (get_pod_info respond id w) as r eqn:Er.
    destruct r as [[o t] w1].
    unfold trace_of, outcome_of in Htr, Hcall. simpl in Htr, Hcall, Hhead. subst t.
    destruct o as [id'| | | |e]; try discriminate.
    + rewrite (bind_run _ _ _ _ _ _ Hhead).
      destruct (print_stream_requests id' w1) as [Hrs Hout].
      destruct (bind (get_stream respond id') _ w1) as [[o2 t2] w2].
      unfold trace_of, outcome_of in *. simpl in *.
      rewrite !requests_app, Hreq, Hrs. split; [reflexivity | exact Hout].
    + rewrite (bind_stop _ _ _ _ _ _ Hhead).
      unfold trace_of, outcome_of. simpl.
      rewrite requests_app, Hreq. split; reflexivity.
Qed.

Lemma item_body_shape (ite : value) (w : World) :
  item_requests (requests (trace_of (item_body respond encodes ite w))) = true
  /\ stays_in_loop (outcome_of (item_body respond encodes ite w)) = true.
Proof.
  unfold item_body.
  destruct (next_cell ite) as [e|cell]; [split; reflexivity|].
  rewrite bind_lift_inr.
  destruct (method_get cell "GuideId") as [e|id]; [split; reflexivity|].
  rewrite bind_lift_inr.
  destruct (truthy id); cbn [negb]; [|split; reflexivity].
  rewrite bind_skip. apply cell_block_shape.
Qed.

(** X18.  Whatever the item and the answers of the service, one item
    sends at most one contents request followed by at most one stream
    request, and ends normally, with [continue] or with an exception. *)
Theorem item_requests_bound (ite : value) (w : World) :
  item_requests (requests (trace_of (item_body respond encodes ite w))) = true
  /\ stays_in_loop (outcome_of (item_body respond encodes ite w)) = true.
Proof. apply item_body_shape. Qed.

(** *** The loops *)

(** A loop over [pre ++ post] whose first part ran to its end goes on
    with [post], when the body never breaks out of the loop. *)
Lemma for_app_done (body : value -> prog World unit) (pre post : list value) :
  (forall x w, stays_in_loop (outcome_of (body x w)) = true) ->
  forall (w w1 : World) (t1 : list event),
    for_ pre body w = (Done tt, t1, w1) ->
    for_ (pre ++ post) body w = after t1 (for_ post body w1).
Proof.
  intros Hbody. induction pre as [|x pre IH]; intros w w1 t1 Hpre.
  - simpl in Hpre. injection Hpre as <- <-. rewrite after_nil. reflexivity.
  - simpl in Hpre |- *. specialize (Hbody x w).
    destruct (body x w) as [[o t] w2]. unfold outcome_of in Hbody. simpl in Hbody.
    destruct o as [[]| | | |]; try discriminate.
    + destruct (for_ pre body w2) as [[o2 t2] w3] eqn:Erest.
      injection Hpre as -> <- ->.
      rewrite (IH w2 w1 t2 Erest).
      destruct (for_ post body w1) as [[o3 t3] w4]. simpl.
      rewrite app_assoc. reflexivity.
    + destruct (for_ pre body w2) as [[o2 t2] w3] eqn:Erest.
      injection Hpre as -> <- ->.
      rewrite (IH w2 w1 t2 Erest).
      destruct (for_ post body w1) as [[o3 t3] w4]. simpl.
      rewrite app_assoc. reflexivity.
Qed.

(** X19.  An item whose Cell value is no record ends the loop over the
    items wherever it stands: after the items before it have run, the
    loop raises AttributeError, and the items after it are not run. *)
Theorem unreadable_cell_ends_loop (pre post : list value) (x : value)
    (t1 : list event) (w w1 : World) :
  for_ pre (item_body respond encodes) w = (Done tt, t1, w1) ->
  match next_cell x with
  | inr cell => is_dict cell = false
  | inl _ => True
  end ->
  for_ (pre ++ x :: post) (item_body respond encodes) w = (Raise AttributeError, t1, w1).
Proof.
  intros Hpre Hx.
  rewrite (for_app_done (item_body respond encodes) pre (x :: post)
             (fun y w0 => proj2 (item_body_shape y w0)) w w1 t1 Hpre).
  assert (Hrun : item_body respond encodes x w1 = (Raise AttributeError, [], w1)).
  { revert Hx. unfold item_body. destruct (next_cell x) as [e|cell] eqn:Ecell.
    - intros _. unfold next_cell in Ecell.
      destruct x; simpl in Ecell; try discriminate; injection Ecell as <-; reflexivity.
    - intros Hcell. rewrite bind_lift_inr.
      destruct cell; try discriminate; reflexivity. }
  rewrite (for_raise _ _ _ _ _ _ _ Hrun). simpl. rewrite app_nil_r. reflexivity.
Qed.

(** *** One entry *)

(** X20.  A List hides the Gallery: two entries with the same truthy
    List run the same, whatever their Gallery and other fields. *)
Theorem list_hides_gallery (item item' : value) (w : World) :
  is_dict item = true ->
  is_dict item' = true ->
  field item "List" = field item' "List" ->
  truthy (field item "List") = true ->
  entry_body respond encodes item w = entry_body respond encodes item' w.
Proof.
  intros Hdict Hdict' Hsame Hlist. unfold entry_body, entry_loop.
  rewrite (is_dict_method_get item "List" Hdict), (is_dict_method_get item' "List" Hdict').
  rewrite !bind_lift_inr, <- Hsame, Hlist. reflexivity.
Qed.

(** X21.  Without a truthy List the Gallery is the container, and it is
    walked as a List is: the entry runs as the entry that has the value
    of its Gallery under List. *)
Theorem gallery_walked_as_list (item : value) (w : World) :
  is_dict item = true ->
  truthy (field item "List") = false ->
  entry_body respond encodes item w
  = entry_body respond encodes (JObj [("List", field item "Gallery")]) w.
Proof.
  intros Hdict Hlist. unfold entry_body, entry_loop.
  rewrite (is_dict_method_get item "List" Hdict), bind_lift_inr, Hlist.
  rewrite (is_dict_method_get item "Gallery" Hdict).
  cbn [method_get assoc String.eqb Ascii.eqb Bool.eqb]. rewrite !bind_lift_inr.
  destruct (truthy (field item "Gallery")) eqn:Hg.
  - rewrite !bind_ret. cbv beta. rewrite Hg. reflexivity.
  - rewrite !bind_lift_inr. reflexivity.
Qed.

(** X22.  A container whose Items cannot be read and iterated ends the
    entry with the exception of the reading, before any item is run. *)
Theorem unreadable_container_raises (item : value) (e : exn) (w : World) :
  is_dict item = true ->
  truthy (field item "List") = true ->
  enumerated (inr (field item "List")) "Items" = inl e ->
  entry_body respond encodes item w = (Raise e, [], w).
Proof.
  intros Hdict Hlist Hen. unfold entry_body, entry_loop.
  rewrite (is_dict_method_get item "List" Hdict), bind_lift_inr, Hlist.
  rewrite bind_ret, Hlist. cbn [negb]. rewrite bind_skip.
  unfold enumerated in Hen.
  destruct (getitem (field item "List") "Items") as [e'|b].
  - injection Hen as ->. reflexivity.
  - rewrite bind_lift_inr. unfold for_in. rewrite Hen. reflexivity.
Qed.

End Traversal.

(** ** Further properties of the whole run *)

Section Run.

Context {World : Type}.
Variable respond : request -> World -> result value * World.
Variable encodes : value -> bool.

Lemma entry_body_bare (item : value) (w : World) :
  bare item = true -> entry_body respond encodes item w = (Continue, [], w).
Proof.
  unfold bare. intros H. apply andb_prop in H as [H Hg]. apply andb_prop in H as [Hd Hl].
  apply negb_true_iff in Hg, Hl. unfold entry_body, entry_loop.
  rewrite (is_dict_method_get item "List" Hd), bind_lift_inr, Hl.
  rewrite (is_dict_method_get item "Gallery" Hd), bind_lift_inr, Hg.
  reflexivity.
Qed.

Lemma for_bare (entries : list value) (w : World) :
  forallb bare entries = true ->
  for_ entries (entry_body respond encodes) w = (Done tt, [], w).
Proof.
  induction entries as [|x r IH]; intros Hall; [reflexivity|].
  simpl in Hall. apply andb_prop in Hall as [Hx Hr].
  rewrite (for_next _ x r w w [] Continue (entry_body_bare x w Hx)); [| now right].
  rewrite after_nil. exact (IH Hr).
Qed.

(** X23.  When the favourites request fails, or its answer has no Items
    that can be read and iterated, the run ends with that exception after
    the one request; nothing is printed. *)
Theorem script_unreadable_favorites (keyword : string) (res : result value)
    (e : exn) (w w1 : World) :
  respond (Profiles keyword) w = (res, w1) ->
  enumerated res "Items" = inl e ->
  script respond encodes keyword w = (Raise e, [Sent (Profiles keyword)], w1).
Proof.
  intros Hresp Hen. unfold script, script_with.
  unfold bind at 1, request_json. rewrite Hresp.
  destruct res as [e'|data].
  - injection Hen as ->. reflexivity.
  - unfold enumerated in Hen.
    destruct (getitem data "Items") as [e'|b].
    + injection Hen as ->. reflexivity.
    + rewrite bind_lift_inr. unfold for_in. rewrite Hen. reflexivity.
Qed.

(** X24.  A listing all of whose entries have no container (none at all,
    for an empty listing) gives a run that ends normally after the
    favourites request, with nothing printed and no other request. *)
Theorem script_without_containers (keyword : string) (data : value)
    (entries : list value) (w w1 : World) :
  respond (Profiles keyword) w = (inr data, w1) ->
  enumerated (inr data) "Items" = inr entries ->
  forallb bare entries = true ->
  script respond encodes keyword w = (Done tt, [Sent (Profiles keyword)], w1).
Proof.
  intros Hresp Hen Hall. unfold script, script_with.
  unfold bind at 1, request_json. rewrite Hresp.
  unfold enumerated in Hen.
  destruct (getitem data "Items") as [e'|b]; [discriminate|].
  rewrite bind_lift_inr. unfold for_in. rewrite Hen, bind_lift_inr.
  change (entry_loop (item_body respond encodes)) with (entry_body respond encodes).
  rewrite (for_bare entries w1 Hall). reflexivity.
Qed.

(** *** The favourites are fetched once *)

Lemma item_requests_no_profiles (rs : list request) :
  item_requests rs = true -> existsb is_profiles rs = false.
Proof.
  destruct rs as [|[q|i|i] [|[q'|i'|i'] [|r rs]]]; simpl; try discriminate; reflexivity.
Qed.

Lemma existsb_requests_app (t1 t2 : list event) :
  existsb is_profiles (requests t1) = false ->
  existsb is_profiles (requests t2) = false ->
  existsb is_profiles (requests (t1 ++ t2)) = false.
Proof.
  intros H1 H2.
  induction t1 as [|[r|v] t1 IH]; simpl in *; [exact H2 | | exact (IH H1)].
  apply orb_false_iff in H1 as [Hr H1]. rewrite Hr. exact (IH H1).
Qed.

Lemma for_no_profiles (body : value -> prog World unit) :
  (forall x w, existsb is_profiles (requests (trace_of (body x w))) = false) ->
  forall xs w, existsb is_profiles (requests (trace_of (for_ xs body w))) = false.
Proof.
  intros Hbody xs. induction xs as [|x r IH]; intros w; [reflexivity|].
  simpl. specialize (Hbody x w). destruct (body x w) as [[o t] w1].
  unfold trace_of in *. simpl in Hbody.
  destruct o; try exact Hbody; specialize (IH w1);
    destruct (for_ r body w1) as [[o2 t2] w2]; simpl in *;
    apply existsb_requests_app; assumption.
Qed.

Lemma for_in_no_profiles (body : value -> prog World unit) :
  (forall x w, existsb is_profiles (requests (trace_of (body x w))) = false) ->
  forall v w, existsb is_profiles (requests (trace_of (for_in v body w))) = false.
Proof.
  intros Hbody v w. unfold for_in. destruct (iter v) as [e|xs]; [reflexivity|].
  rewrite bind_lift_inr. apply for_no_profiles, Hbody.
Qed.

Lemma entry_body_no_profiles (item : value) (w : World) :
  existsb is_profiles (requests (trace_of (entry_body respond encodes item w))) = false.
Proof.
  unfold entry_body, entry_loop.
  destruct (method_get item "List") as [e|l]; [reflexivity|].
  rewrite bind_lift_inr.
  assert (Hrest : forall list w0,
    existsb is_profiles (requests (trace_of
      (bind (if negb (truthy list) then continue_ else skip) (fun _ =>
       bind (lift (getitem list "Items")) (fun items =>
       for_in items (item_body respond encodes))) w0))) = false).
  { intros list w0. destruct (truthy list); cbn [negb]; [|reflexivity].
    rewrite bind_skip. destruct (getitem list "Items") as [e|items]; [reflexivity|].
    rewrite bind_lift_inr. apply for_in_no_profiles. intros x w2.
    apply item_requests_no_profiles, item_body_shape. }
  destruct (truthy l).
  - rewrite bind_ret. apply Hrest.
  - destruct (method_get item "Gallery") as [e|g]; [reflexivity|].
    rewrite bind_lift_inr. apply Hrest.
Qed.

(** X25.  Every run starts with the favourites request for the keyword
    and never sends a second one, whatever the service answers. *)
Theorem script_fetches_favorites_once (keyword : string) (w : World) :
  exists t, trace_of (script respond encodes keyword w) = Sent (Profiles keyword) :: t
            /\ existsb is_profiles (requests t) = false.
Proof.
  unfold script, script_with. unfold bind at 1, request_json.
  destruct (respond (Profiles keyword) w) as [[e|data] w1].
  - exists []. split; reflexivity.
  - destruct (getitem data "Items") as [e|items].
    + exists []. split; reflexivity.
    + rewrite bind_lift_inr.
      pose proof (for_in_no_profiles (entry_body respond encodes)
                    entry_body_no_profiles items w1) as Hno.
      change (entry_loop (item_body respond encodes)) with (entry_body respond encodes).
      destruct (for_in items (entry_body respond encodes) w1) as [[o t] w2].
      exists t. split; [reflexivity | exact Hno].
Qed.

(** *** The Cell of an item *)

Lemma length_app (p s : string) :
  String.length (p ++ s) = String.length p + String.length s.
Proof. induction p as [|c p IH]; simpl; [reflexivity | rewrite IH; reflexivity]. Qed.

Lemma substring_whole (s : string) : substring 0 (String.length s) s = s.
Proof. induction s as [|c s IH]; simpl; [reflexivity | rewrite IH; reflexivity]. Qed.

Lemma substring_after (p s : string) (m : nat) :
  substring (String.length p) m (p ++ s) = substring 0 m s.
Proof. induction p as [|c p IH]; simpl; [reflexivity | exact IH]. Qed.

Lemma substring_split (s : string) (k : nat) :
  k <= String.length s ->
  s = (substring 0 k s ++ substring k (String.length s - k) s)%string.
Proof.
  revert k. induction s as [|c s IH]; intros k Hk.
  - destruct k; [reflexivity | simpl in Hk; lia].
  - destruct k as [|k].
    + simpl. rewrite substring_whole. reflexivity.
    + simpl in Hk. simpl. f_equal. apply IH. lia.
Qed.

(** [endswith] holds of the strings that are a prefix followed by the
    suffix, and of no other. *)
Lemma endswith_iff (s suffix : string) :
  endswith s suffix = true <-> exists p, s = (p ++ suffix)%string.
Proof.
  unfold endswith. split.
  - destruct (Nat.leb_spec (String.length suffix) (String.length s)) as [Hle|Hlt];
      [|discriminate].
    intros Heq. apply String.eqb_eq in Heq.
    exists (substring 0 (String.length s - String.length suffix) s).
    pose proof (substring_split s (String.length s - String.length suffix)) as Hsplit.
    replace (String.length s - (String.length s - String.length suffix))
      with (String.length suffix) in Hsplit by lia.
    rewrite Heq in Hsplit. apply Hsplit. lia.
  - intros [p ->]. rewrite length_app.
    replace (Nat.leb (String.length suffix) (String.length p + String.length suffix)) with true
      by (symmetry; apply Nat.leb_le; lia).
    replace (String.length p + String.length suffix - String.length suffix)
      with (String.length p) by lia.
    rewrite substring_after, substring_whole. apply String.eqb_refl.
Qed.

(** X26.  The Cell of an item is the value of its first key that ends
    with Cell, in the order of the keys: keys before it that do not end
    with Cell are passed over, and keys after it are not looked at, even
    when they end with Cell too. *)
Theorem next_cell_first_cell_key (pre post : list (string * value))
    (name : string) (v : value) :
  (forall kv p, In kv pre -> fst kv <> (p ++ "Cell")%string) ->
  next_cell (JObj (pre ++ ((name ++ "Cell")%string, v) :: post)) = inr v.
Proof.
  intros Hpre. unfold next_cell. simpl method_items. cbv iota. f_equal.
  induction pre as [|kv pre IH].
  - simpl app. cbn [find fst].
    replace (endswith (name ++ "Cell") "Cell") with true; [reflexivity|].
    symmetry. apply endswith_iff. exists name. reflexivity.
  - rewrite <- app_comm_cons. cbn [find].
    destruct (endswith (fst kv) "Cell") eqn:Ekv.
    + exfalso. apply endswith_iff in Ekv as [p Hp].
      exact (Hpre kv p (or_introl eq_refl) Hp).
    + apply IH. intros kv' p Hin. apply Hpre. right. exact Hin.
Qed.

End Run.

(** ** The further properties on the two services *)

Lemma get_stream_first_mp3_decides_witness :
  get_stream Faulty.respond (JStr "late") 0
  = (Done (JStr "M"), [Sent (Tune (JStr "late"))], 1)
  /\ get_stream Faulty.respond (JStr "nourl") 0
     = (Raise (KeyError "url"), [Sent (Tune (JStr "nourl"))], 1).
Proof.
  split.
  - exact (get_stream_first_mp3_decides Faulty.respond (JStr "late")
             (JObj [("body", JArr Faulty.late_mp3)])
             (Faulty.rec [("media_type", "mp3"); ("url", "M")])
             [Faulty.rec [("media_type", "aac")]] [JNum 7] 0 1
             eq_refl eq_refl eq_refl eq_refl).
  - exact (get_stream_first_mp3_decides Faulty.respond (JStr "nourl")
             (JObj [("body", JArr Faulty.mp3_without_url)])
             (Faulty.rec [("media_type", "mp3")])
             [] [Faulty.rec [("media_type", "mp3"); ("url", "M")]] 0 1
             eq_refl eq_refl eq_refl eq_refl).
Defined.

Lemma get_stream_fallback_first_url_witness :
  get_stream Faulty.respond (JStr "first") 0
  = (Done (JStr "F"), [Sent (Tune (JStr "first"))], 1).
Proof.
  exact (get_stream_fallback_first_url Faulty.respond (JStr "first")
           (JObj [("body", JArr Faulty.first_url_only)])
           (Faulty.rec [("media_type", "aac"); ("url", "F")])
           [Faulty.rec [("media_type", "ogg")]] 0 1
           eq_refl eq_refl eq_refl).
Defined.

Lemma get_stream_unreadable_candidate_witness :
  get_stream Faulty.respond (JStr "untyped") 0
  = (Raise (KeyError "media_type"), [Sent (Tune (JStr "untyped"))], 1).
Proof.
  exact (get_stream_unreadable_candidate Faulty.respond (JStr "untyped")
           (JObj [("body", JArr Faulty.untyped_second)])
           (Faulty.rec [("url", "U")])
           [Faulty.rec [("media_type", "aac"); ("url", "A")]]
           [Faulty.rec [("media_type", "mp3"); ("url", "M")]]
           (KeyError "media_type") 0 1
           eq_refl eq_refl eq_refl eq_refl).
Defined.

Lemma get_stream_unreadable_body_witness :
  get_stream Faulty.respond (JStr "down") 0
  = (Raise (RequestError "timeout"), [Sent (Tune (JStr "down"))], 1)
  /\ get_stream Faulty.respond (JStr "nobody") 0
     = (Raise (KeyError "body"), [Sent (Tune (JStr "nobody"))], 1)
  /\ get_stream Faulty.respond (JStr "null") 0
     = (Raise TypeError, [Sent (Tune (JStr "null"))], 1).
Proof.
  split; [|split].
  - exact (get_stream_unreadable_body Faulty.respond (JStr "down")
             (inl (RequestError "timeout")) (RequestError "timeout") 0 1
             eq_refl eq_refl).
  - exact (get_stream_unreadable_body Faulty.respond (JStr "nobody")
             (inr (JObj [])) (KeyError "body") 0 1 eq_refl eq_refl).
  - exact (get_stream_unreadable_body Faulty.respond (JStr "null")
             (inr (JObj [("body", JNull)])) TypeError 0 1 eq_refl eq_refl).
Defined.

Lemma get_stream_nothing_enumerated_witness :
  get_stream Faulty.respond (JStr "text") 0
  = (Done JNull, [Sent (Tune (JStr "text"))], 1).
Proof.
  exact (get_stream_nothing_enumerated Faulty.respond (JStr "text")
           (JObj [("body", JStr "")]) (JStr "") 0 1 eq_refl eq_refl eq_refl).
Defined.

Lemma get_pod_info_first_child_decides_witness :
  get_pod_info Faulty.respond (JStr "deep") 0
  = (Done (JStr "g"), [Sent (Contents (JStr "deep"))], 1)
  /\ get_pod_info Faulty.respond (JStr "noid") 0
     = (Raise (KeyError "GuideId"), [Sent (Contents (JStr "noid"))], 1).
Proof.
  split.
  - exact (get_pod_info_first_child_decides Faulty.respond (JStr "deep")
             (JObj [("Items", JArr Faulty.deep_children)])
             (Faulty.group [Faulty.rec [("GuideId", "g")]; JNum 5])
             (Faulty.rec [("GuideId", "g")])
             [JObj []; Faulty.group []] [JStr "junk"] [JNum 5] 0 1
             eq_refl eq_refl eq_refl eq_refl eq_refl).
  - exact (get_pod_info_first_child_decides Faulty.respond (JStr "noid")
             (JObj [("Items", JArr Faulty.child_without_id)])
             (Faulty.group [Faulty.rec [("Title", "t")]; Faulty.rec [("GuideId", "late")]])
             (Faulty.rec [("Title", "t")])
             [] [Faulty.group [Faulty.rec [("GuideId", "later")]]]
             [Faulty.rec [("GuideId", "late")]] 0 1
             eq_refl eq_refl eq_refl eq_refl eq_refl).
Defined.

Lemma get_pod_info_unreadable_listing_witness :
  get_pod_info Faulty.respond (JStr "down") 0
  = (Raise (RequestError "timeout"), [Sent (Contents (JStr "down"))], 1)
  /\ get_pod_info Faulty.respond (JStr "other") 0
     = (Raise (KeyError "Items"), [Sent (Contents (JStr "other"))], 1).
Proof.
  split.
  - exact (get_pod_info_unreadable_listing Faulty.respond (JStr "down")
             (inl (RequestError "timeout")) (RequestError "timeout") 0 1
             eq_refl eq_refl).
  - exact (get_pod_info_unreadable_listing Faulty.respond (JStr "other")
             (inr (JObj [])) (KeyError "Items") 0 1 eq_refl eq_refl).
Defined.

Lemma get_pod_info_unreadable_item_witness :
  get_pod_info Faulty.respond (JStr "junk") 0
  = (Raise AttributeError, [Sent (Contents (JStr "junk"))], 1)
  /\ get_pod_info Faulty.respond (JStr "flag") 0
     = (Raise TypeError, [Sent (Contents (JStr "flag"))], 1).
Proof.
  split.
  - exact (get_pod_info_unreadable_item Faulty.respond (JStr "junk")
             (JObj [("Items", JArr [JObj []; JStr "junk"])]) (JStr "junk")
             [JObj []] [] AttributeError 0 1
             eq_refl eq_refl eq_refl (or_introl (conj eq_refl eq_refl))).
  - exact (get_pod_info_unreadable_item Faulty.respond (JStr "flag")
             (JObj [("Items", JArr [JObj [("Children", JBool true)]])])
             (JObj [("Children", JBool true)])
             [] [] TypeError 0 1
             eq_refl eq_refl eq_refl
             (or_intror (conj eq_refl (conj eq_refl eq_refl)))).
Defined.

Lemma station_streams_own_id_witness :
  (item_body Sample.respond Sample.encodes Sample.station_item []
   = (Done tt,
      [Printed (JStr "Radio One"); Printed (JStr "Station");
       Sent (Tune (JStr "s1")); Printed (JStr "B")], [])
   /\ requests (trace_of (item_body Sample.respond Sample.encodes
                            Sample.station_item []))
      = [Tune (JStr "s1")])
  /\ (item_body Sample.respond Sample.encodes
        (Faulty.unwritable_item (Some "Station")) []
      = (Raise UnicodeEncodeError, [], [])
      /\ requests (trace_of (item_body Sample.respond Sample.encodes
                               (Faulty.unwritable_item (Some "Station")) []))
         = []).
Proof.
  split.
  - exact (station_streams_own_id Sample.respond Sample.encodes Sample.station_item
             (Sample.cell "s1" "Radio One" (Some "Station")) (JStr "Radio One") []
             eq_refl eq_refl eq_refl eq_refl eq_refl).
  - exact (station_streams_own_id Sample.respond Sample.encodes
             (Faulty.unwritable_item (Some "Station"))
             (Sample.cell "s1" Faulty.lone_surrogate (Some "Station"))
             (JStr Faulty.lone_surrogate) []
             eq_refl eq_refl eq_refl eq_refl eq_refl).
Defined.

Lemma untyped_cell_streams_own_id_witness :
  (item_body Sample.respond Sample.encodes Sample.silent_item []
   = (Done tt, [Printed (JStr "Silent"); Sent (Tune (JStr "s3")); Printed JNull], [])
   /\ requests (trace_of (item_body Sample.respond Sample.encodes
                            Sample.silent_item []))
      = [Tune (JStr "s3")])
  /\ (item_body Sample.respond Sample.encodes (Faulty.unwritable_item None) []
      = (Raise UnicodeEncodeError, [], [])
      /\ requests (trace_of (item_body Sample.respond Sample.encodes
                               (Faulty.unwritable_item None) []))
         = []).
Proof.
  split.
  - exact (untyped_cell_streams_own_id Sample.respond Sample.encodes
             Sample.silent_item
             (Sample.cell "s3" "Silent" None) (JStr "Silent") []
             eq_refl eq_refl eq_refl eq_refl eq_refl).
  - exact (untyped_cell_streams_own_id Sample.respond Sample.encodes
             (Faulty.unwritable_item None)
             (Sample.cell "s1" Faulty.lone_surrogate None)
             (JStr Faulty.lone_surrogate) []
             eq_refl eq_refl eq_refl eq_refl eq_refl).
Defined.

Lemma cell_without_id_is_skipped_witness :
  item_body Faulty.respond Sample.encodes Faulty.anonymous_item 0 = (Continue, [], 0)
  /\ forall rest, for_ (Faulty.anonymous_item :: rest) (item_body Faulty.respond Sample.encodes) 0
                  = for_ rest (item_body Faulty.respond Sample.encodes) 0.
Proof.
  exact (cell_without_id_is_skipped Faulty.respond Sample.encodes Faulty.anonymous_item
           (JObj [("SEOInfo", Faulty.rec [("Title", "Nobody")])]) 0
           eq_refl eq_refl eq_refl).
Defined.

Lemma unreadable_type_raises_witness :
  item_body Faulty.respond Sample.encodes Faulty.kind_item 0
  = (Raise (KeyError "Type"), [Printed (JStr "Kind")], 0)
  /\ item_body Faulty.respond Sample.encodes Faulty.unwritable_kind_item 0
     = (Raise UnicodeEncodeError, [], 0).
Proof.
  split.
  - exact (unreadable_type_raises Faulty.respond Sample.encodes Faulty.kind_item
             Faulty.kind_cell (JStr "Kind") (KeyError "Type") 0
             eq_refl eq_refl eq_refl eq_refl eq_refl eq_refl).
  - exact (unreadable_type_raises Faulty.respond Sample.encodes
             Faulty.unwritable_kind_item
             (JObj [("GuideId", JStr "s1");
                    ("SEOInfo", Faulty.rec [("Title", Faulty.lone_surrogate)]);
                    ("ContentInfo", Faulty.rec [("Kind", "k")])])
             (JStr Faulty.lone_surrogate) (KeyError "Type") 0
             eq_refl eq_refl eq_refl eq_refl eq_refl eq_refl).
Defined.

Lemma unreadable_title_raises_witness :
  item_body Faulty.respond Sample.encodes Faulty.untitled_item 0 = (Raise (KeyError "Title"), [], 0).
Proof.
  exact (unreadable_title_raises Faulty.respond Sample.encodes Faulty.untitled_item
           (JObj [("GuideId", JStr "s1"); ("SEOInfo", Faulty.rec [("Name", "n")])])
           (KeyError "Title") 0
           eq_refl eq_refl eq_refl eq_refl eq_refl).
Defined.

Lemma unreadable_cell_raises_witness :
  item_body Sample.respond Sample.encodes Sample.no_cell_item [] = (Raise AttributeError, [], [])
  /\ item_body Sample.respond Sample.encodes (JObj [("TextCell", JStr "s1")]) []
     = (Raise AttributeError, [], [])
  /\ item_body Sample.respond Sample.encodes (JArr []) [] = (Raise AttributeError, [], []).
Proof.
  split; [|split].
  - exact (unreadable_cell_raises Sample.respond Sample.encodes Sample.no_cell_item [] eq_refl).
  - exact (unreadable_cell_raises Sample.respond Sample.encodes (JObj [("TextCell", JStr "s1")]) []
             eq_refl).
  - exact (unreadable_cell_raises Sample.respond Sample.encodes (JArr []) [] I).
Defined.

Lemma cell_fields_decide_witness :
  item_body Sample.respond Sample.encodes Sample.station_item []
  = item_body Sample.respond Sample.encodes Faulty.renamed_item [].
Proof.
  exact (cell_fields_decide Sample.respond Sample.encodes Sample.station_item Faulty.renamed_item
           (Sample.cell "s1" "Radio One" (Some "Station")) Faulty.renamed_cell []
           eq_refl eq_refl eq_refl eq_refl eq_refl eq_refl eq_refl).
Defined.

Lemma unreadable_cell_ends_loop_witness :
  for_ ([Sample.station_item] ++ Sample.no_cell_item :: [Sample.show_item])
    (item_body Sample.respond Sample.encodes) []
  = (Raise AttributeError,
     [Printed (JStr "Radio One"); Printed (JStr "Station");
      Sent (Tune (JStr "s1")); Printed (JStr "B")], []).
Proof.
  exact (unreadable_cell_ends_loop Sample.respond Sample.encodes [Sample.station_item]
           [Sample.show_item] Sample.no_cell_item _ [] [] eq_refl eq_refl).
Defined.

Lemma list_hides_gallery_witness :
  entry_body Sample.respond Sample.encodes Faulty.list_and_gallery []
  = entry_body Sample.respond Sample.encodes Faulty.list_only [].
Proof.
  exact (list_hides_gallery Sample.respond Sample.encodes Faulty.list_and_gallery Faulty.list_only []
           eq_refl eq_refl eq_refl eq_refl).
Defined.

Lemma gallery_walked_as_list_witness :
  entry_body Sample.respond Sample.encodes Faulty.gallery_only []
  = entry_body Sample.respond Sample.encodes (JObj [("List", Faulty.station_list)]) [].
Proof.
  exact (gallery_walked_as_list Sample.respond Sample.encodes Faulty.gallery_only [] eq_refl eq_refl).
Defined.

Lemma unreadable_container_raises_witness :
  entry_body Sample.respond Sample.encodes Faulty.list_without_items []
  = (Raise (KeyError "Items"), [], []).
Proof.
  exact (unreadable_container_raises Sample.respond Sample.encodes Faulty.list_without_items
           (KeyError "Items") [] eq_refl eq_refl eq_refl).
Defined.

Lemma script_unreadable_favorites_witness :
  script Faulty.respond Sample.encodes "down" 0
  = (Raise (RequestError "timeout"), [Sent (Profiles "down")], 1)
  /\ script Faulty.respond Sample.encodes "bad" 0
     = (Raise (KeyError "Items"), [Sent (Profiles "bad")], 1).
Proof.
  split.
  - exact (script_unreadable_favorites Faulty.respond Sample.encodes "down"
             (inl (RequestError "timeout")) (RequestError "timeout") 0 1
             eq_refl eq_refl).
  - exact (script_unreadable_favorites Faulty.respond Sample.encodes "bad"
             (inr (JObj [])) (KeyError "Items") 0 1 eq_refl eq_refl).
Defined.

Lemma script_without_containers_witness :
  script Faulty.respond Sample.encodes "jazz" 0 = (Done tt, [Sent (Profiles "jazz")], 1).
Proof.
  exact (script_without_containers Faulty.respond Sample.encodes "jazz"
           (JObj [("Items", JArr [Sample.bare_entry; JObj [("Gallery", JNull)]])])
           [Sample.bare_entry; JObj [("Gallery", JNull)]] 0 1
           eq_refl eq_refl eq_refl).
Defined.

Lemma next_cell_first_cell_key_witness :
  next_cell (JObj ([("Logo", JStr "x")]
                   ++ (("Any" ++ "Cell")%string, Faulty.renamed_cell)
                   :: [("OtherCell", JNull)]))
  = inr Faulty.renamed_cell.
Proof.
  apply (next_cell_first_cell_key [("Logo", JStr "x")] [("OtherCell", JNull)]
           "Any" Faulty.renamed_cell).
  intros kv p [<- | []] H.
  destruct p as [|a [|b [|c [|d [|e p]]]]]; simpl in H; discriminate H.
Defined.

Lemma unwritable_title_raises_witness :
  item_body Sample.respond Sample.encodes (Faulty.unwritable_item (Some "Show")) []
  = (Raise UnicodeEncodeError, [], []).
Proof.
  exact (unwritable_title_raises Sample.respond Sample.encodes
           (Faulty.unwritable_item (Some "Show"))
           (Sample.cell "s1" Faulty.lone_surrogate (Some "Show"))
           (JStr Faulty.lone_surrogate) []
           eq_refl eq_refl eq_refl eq_refl eq_refl).
Defined.
